(** * Inference gateway (src/index.js): a shallow embedding of its three
    Express handlers, and the properties of the specification proved on it.

    The handlers are effectful JavaScript: they read and delete a file,
    call the vendor client, write to the console and to the HTTP response,
    and throw.  They are embedded in a state-and-exception monad over a
    [World] that holds the file system, the response object and the
    chronological list of the effects performed. *)

From Stdlib Require Import Strings.Ascii Strings.String Strings.Byte NArith.
From Stdlib Require Import DecimalString.
From stdpp Require Import gmap strings list.

Open Scope string_scope.

(** ** [Buffer.prototype.toString('base64')]

    RFC 4648 base64 with padding, as Node produces it: three bytes give
    four characters, each the digit of six bits; one or two trailing
    bytes give two or three digits and are padded with [=]. *)
Module Base64.

Definition alphabet : string :=
  "ABCDEFGHIJKLMNOPQRSTUVWXYZabcdefghijklmnopqrstuvwxyz0123456789+/".

Definition pad : ascii := "="%char.

Definition digit (n : N) : ascii :=
  match String.get (N.to_nat n) alphabet with
  | Some c => c
  | None => pad
  end.

(** The four sextets of a group of three bytes. *)
Definition sextet0 (a : byte) : N := N.shiftr (Byte.to_N a) 2.

Definition sextet1 (a b : byte) : N :=
  N.lor (N.shiftl (N.land (Byte.to_N a) 3) 4) (N.shiftr (Byte.to_N b) 4).

Definition sextet2 (b c : byte) : N :=
  N.lor (N.shiftl (N.land (Byte.to_N b) 15) 2) (N.shiftr (Byte.to_N c) 6).

Definition sextet3 (c : byte) : N := N.land (Byte.to_N c) 63.

Fixpoint encode (bs : list byte) : string :=
  match bs with
  | [] => ""
  | [a] =>
      String (digit (sextet0 a)) (String (digit (sextet1 a x00))
        (String pad (String pad "")))
  | [a; b] =>
      String (digit (sextet0 a)) (String (digit (sextet1 a b))
        (String (digit (sextet2 b x00)) (String pad "")))
  | a :: b :: c :: rest =>
      String (digit (sextet0 a)) (String (digit (sextet1 a b))
        (String (digit (sextet2 b c)) (String (digit (sextet3 c))
          (encode rest))))
  end.

(** The inverse, for checking the encoder against it. *)
Fixpoint index_of (c : ascii) (s : string) (i : N) : option N :=
  match s with
  | EmptyString => None
  | String d s' => if Ascii.eqb c d then Some i else index_of c s' (N.succ i)
  end.

Definition value (c : ascii) : option N := index_of c alphabet 0.

Definition octet (n : N) : byte :=
  match Byte.of_N (N.land n 255) with
  | Some b => b
  | None => x00
  end.

Definition is_empty (s : string) : bool :=
  match s with EmptyString => true | _ => false end.

Fixpoint decode (s : string) : option (list byte) :=
  match s with
  | EmptyString => Some []
  | String c0 (String c1 (String c2 (String c3 rest))) =>
      match value c0, value c1 with
      | Some v0, Some v1 =>
          let a := octet (N.lor (N.shiftl v0 2) (N.shiftr v1 4)) in
          match value c2 with
          | None =>
              if Ascii.eqb c2 pad && Ascii.eqb c3 pad && is_empty rest
              then Some [a] else None
          | Some v2 =>
              let b := octet (N.lor (N.shiftl (N.land v1 15) 4) (N.shiftr v2 2)) in
              match value c3 with
              | None =>
                  if Ascii.eqb c3 pad && is_empty rest
                  then Some [a; b] else None
              | Some v3 =>
                  let c := octet (N.lor (N.shiftl (N.land v2 3) 6) v3) in
                  match decode rest with
                  | Some tl => Some (a :: b :: c :: tl)
                  | None => None
                  end
              end
          end
      | _, _ => None
      end
  | _ => None
  end.

(** A check over all 256 bytes, and over all pairs of bytes. *)
Definition every_byte (P : byte -> bool) : bool :=
  forallb (fun n => match Byte.of_nat n with Some b => P b | None => true end)
          (seq 0 256).

Definition every_pair (P : byte -> byte -> bool) : bool :=
  every_byte (fun a => every_byte (P a)).

(** [digit] is read back by [value]. *)
Definition reads_back (n : N) : bool :=
  match value (digit n) with
  | Some m => N.eqb m n
  | None => false
  end.

End Base64.

(** ** JavaScript values the handlers build and inspect *)
Module Js.

(** A thrown value.  Everything the handlers throw or receive is an
    [Error] object; [error.message] is the only field they read. *)
Inductive ErrorKind := PlainError | TypeError | SystemError | ApiError.

Record JsError := mkError { kind : ErrorKind; message : string }.

(** The property values that occur in the response objects. *)
Inductive Value :=
| VUndefined
| VBool (b : bool)
| VString (s : string).

Definition of_optional (o : option string) : Value :=
  match o with
  | Some s => VString s
  | None => VUndefined
  end.

Definition is_undefined (v : Value) : bool :=
  match v with VUndefined => true | _ => false end.

(** [JSON.stringify] of an object literal: the properties in source
    order, those whose value is [undefined] left out. *)
Definition stringify (fields : list (string * Value)) : list (string * Value) :=
  List.filter (fun kv => negb (is_undefined (snd kv))) fields.

(** Truthiness of a string-or-undefined value ([if (x) ...]). *)
Definition truthy (o : option string) : bool :=
  match o with
  | Some s => negb (String.eqb s "")
  | None => false
  end.

End Js.

(** ** The vendor SDK's request and response shapes (@google/genai) *)
Module GenAI.

Inductive HarmCategory :=
| HARM_CATEGORY_UNSPECIFIED
| HARM_CATEGORY_HATE_SPEECH
| HARM_CATEGORY_DANGEROUS_CONTENT
| HARM_CATEGORY_HARASSMENT
| HARM_CATEGORY_SEXUALLY_EXPLICIT
| HARM_CATEGORY_CIVIC_INTEGRITY.

Inductive HarmBlockThreshold :=
| HARM_BLOCK_THRESHOLD_UNSPECIFIED
| BLOCK_LOW_AND_ABOVE
| BLOCK_MEDIUM_AND_ABOVE
| BLOCK_ONLY_HIGH
| BLOCK_NONE
| OFF.

Record SafetySetting := {
  category : HarmCategory;
  threshold : HarmBlockThreshold
}.

Record Blob := { data : string; mimeType : string }.

(** Every field of a part, a content and a candidate is optional in
    the SDK's types. *)
Record Part := { inlineData : option Blob; text : option string }.

Record Content := { role : option string; parts : option (list Part) }.

Record Candidate := { content : option Content }.

Record PromptFeedback := { blockReason : option string }.

Record GenerateContentResponse := {
  promptFeedback : option PromptFeedback;
  candidates : option (list Candidate)
}.

(** The argument object of [genAI.models.generateContent]. *)
Record GenerateContentParameters := {
  model : string;
  contents : list Content;
  safetySettings : list SafetySetting
}.

End GenAI.

(** ** The world a handler runs in, and the effects it performs *)
Module Effects.
Import Js GenAI.

(** A file of the temporary directory.  [readError] and [unlinkError]
    are the faults the operating system may raise for it (EACCES,
    EBUSY, EPERM, ...): when present, the call throws with that message. *)
Record File := {
  bytes : list byte;
  readError : option string;
  unlinkError : option string
}.

(** What [res.send] is given: a string, or an object sent as JSON. *)
Inductive Body :=
| TextBody (s : string)
| JsonBody (fields : list (string * Value)).

(** An argument of [console.log] / [console.error]. *)
Inductive LogArg :=
| LStr (s : string)
| LOpt (o : option string)
| LErr (e : JsError)
| LPayload (m : string) (cs : list Content).

Inductive Stream := Stdout | Stderr.

(** The effects, recorded in the order in which the calls are made. *)
Inductive Event :=
| EvConsole (out : Stream) (args : list LogArg)
| EvReadFile (p : string)
| EvExists (p : string) (found : bool)
| EvUnlink (p : string)
| EvGenerate (params : GenerateContentParameters)
| EvSend (status : nat) (body : Body).

Record World := {
  fs : gmap string File;
  statusCode : nat;
  response : option (nat * Body);
  trace : list Event
}.

Definition emit (e : Event) (w : World) : World :=
  {| fs := fs w; statusCode := statusCode w; response := response w;
     trace := trace w ++ [e] |}.

(** A computation either returns or throws, and leaves a world. *)
Definition M (A : Type) : Type := World -> (JsError + A) * World.

Definition ret {A} (a : A) : M A := fun w => (inr a, w).

Definition throw {A} (e : JsError) : M A := fun w => (inl e, w).

Definition bind {A B} (m : M A) (k : A -> M B) : M B :=
  fun w =>
    match m w with
    | (inr a, w') => k a w'
    | (inl e, w') => (inl e, w')
    end.

(** [try { body } catch (error) { handler }] *)
Definition try_catch {A} (body : M A) (handler : JsError -> M A) : M A :=
  fun w =>
    match body w with
    | (inr a, w') => (inr a, w')
    | (inl e, w') => handler e w'
    end.

(** [try { body } catch (error) { handler } finally { cleanup }]: the
    cleanup runs on every exit, and an exception of the cleanup
    replaces the completion of the try/catch. *)
Definition try_catch_finally {A} (body : M A) (handler : JsError -> M A)
    (cleanup : M unit) : M A :=
  fun w =>
    let '(r, w') := try_catch body handler w in
    match cleanup w' with
    | (inr _, w'') => (r, w'')
    | (inl e, w'') => (inl e, w'')
    end.

Definition when (b : bool) (m : M unit) : M unit :=
  if b then m else ret tt.

End Effects.

Notation "x <- c ;; k" := (Effects.bind c (fun x => k))
  (at level 100, c at next level, right associativity, only parsing).
Notation "c ;; k" := (Effects.bind c (fun _ => k))
  (at level 100, right associativity, only parsing).

(** ** The runtime calls of the handlers: [fs], [console], [res] *)
Module Node.
Import Js GenAI Effects.

Definition enoent (syscall p : string) : JsError :=
  mkError SystemError
    ("ENOENT: no such file or directory, " ++ syscall ++ " '" ++ p ++ "'").

(** What the file system answers to a read and to a removal. *)
Definition read (files : gmap string File) (p : string) : JsError + list byte :=
  match files !! p with
  | None => inl (enoent "open" p)
  | Some f =>
      match readError f with
      | Some msg => inl (mkError SystemError msg)
      | None => inr (bytes f)
      end
  end.

Definition unlink (files : gmap string File) (p : string)
    : JsError + gmap string File :=
  match files !! p with
  | None => inl (enoent "unlink" p)
  | Some f =>
      match unlinkError f with
      | Some msg => inl (mkError SystemError msg)
      | None => inr (delete p files)
      end
  end.

(** [fs.readFileSync(p)] *)
Definition readFileSync (p : string) : M (list byte) :=
  fun w => (read (fs w) p, emit (EvReadFile p) w).

(** [fs.existsSync(p)] *)
Definition existsSync (p : string) : M bool :=
  fun w =>
    let found := match fs w !! p with Some _ => true | None => false end in
    (inr found, emit (EvExists p found) w).

(** [fs.unlinkSync(p)] *)
Definition unlinkSync (p : string) : M unit :=
  fun w =>
    match unlink (fs w) p with
    | inl e => (inl e, emit (EvUnlink p) w)
    | inr files' =>
        (inr tt, emit (EvUnlink p)
                   {| fs := files'; statusCode := statusCode w;
                      response := response w; trace := trace w |})
    end.

Definition console_log (args : list LogArg) : M unit :=
  fun w => (inr tt, emit (EvConsole Stdout args) w).

Definition console_error (args : list LogArg) : M unit :=
  fun w => (inr tt, emit (EvConsole Stderr args) w).

(** [res.status(code)] *)
Definition res_status (code : nat) : M unit :=
  fun w => (inr tt, {| fs := fs w; statusCode := code;
                       response := response w; trace := trace w |}).

(** [res.send(body)]: the response goes out with the status set so
    far (200 unless [res.status] changed it).  Express refuses a second
    send on the same response. *)
Definition res_send (body : Body) : M unit :=
  fun w =>
    match response w with
    | Some _ =>
        (inl (mkError PlainError
                "Cannot set headers after they are sent to the client"), w)
    | None =>
        (inr tt, emit (EvSend (statusCode w) body)
                   {| fs := fs w; statusCode := statusCode w;
                      response := Some (statusCode w, body);
                      trace := trace w |})
    end.

(** [res.send({...})] of an object literal. *)
Definition res_send_json (fields : list (string * Value)) : M unit :=
  res_send (JsonBody (stringify fields)).

End Node.

(** ** The three route handlers of src/index.js *)
Module Server.
Import Js GenAI Effects Node.

(** [req.file] as the upload middleware leaves it. *)
Record UploadedFile := {
  path : string;
  originalname : string;
  mimetype : string
}.

Record Request := { file : option UploadedFile }.

(** The world at the start of a request: a response object nobody has
    written to yet. *)
Definition fresh (files : gmap string File) : World :=
  {| fs := files; statusCode := 200; response := None; trace := [] |}.

Definition textPrompt : string := "
You are a plant doctor specialized in helping farmers.
Analyze the following image of a plant leaf and provide practical advice.

Please return the response in three clear sections:

1. Disease Name: Name the disease(s) affecting this leaf (if any). Keep it simple and understandable.
2. Causes: Explain in simple terms why this disease may happen.
3. Prevention & Remedies: Provide clear, practical steps a farmer can follow to prevent and treat the disease.

Format your response exactly like this:

Disease Name:
Causes:
Prevention & Remedies:
".

Definition testPrompt : string := "Hello, Gemini!".

(** [result.promptFeedback?.blockReason] *)
Definition promptFeedback_blockReason (result : GenerateContentResponse)
    : option string :=
  match promptFeedback result with
  | None => None
  | Some pf => blockReason pf
  end.

(** A value spliced into a template literal. *)
Definition interpolate (o : option string) : string :=
  match o with
  | Some s => s
  | None => "undefined"
  end.

(** [!result.candidates || result.candidates.length === 0] *)
Definition no_candidates (result : GenerateContentResponse) : bool :=
  match candidates result with
  | None => true
  | Some cs => Nat.eqb (List.length cs) 0
  end.

(** The engine's error for a property read on [undefined]. *)
Definition undefined_read (prop : string) : JsError :=
  mkError TypeError
    ("Cannot read properties of undefined (reading '" ++ prop ++ "')").

(** [result.candidates[0].content.parts[0].text], one member access
    after the other. *)
Definition candidates_0_content_parts_0_text
    (result : GenerateContentResponse) : M (option string) :=
  match candidates result with
  | None => throw (undefined_read "0")
  | Some [] => throw (undefined_read "content")
  | Some (c :: _) =>
      match content c with
      | None => throw (undefined_read "parts")
      | Some ct =>
          match parts ct with
          | None => throw (undefined_read "0")
          | Some [] => throw (undefined_read "text")
          | Some (p :: _) => ret (text p)
          end
      end
  end.

Section Handlers.

(** The client [genAI.models.generateContent]: for a call it either
    resolves to a response or rejects. *)
Variable genAI : GenerateContentParameters -> JsError + GenerateContentResponse.

(** [await genAI.models.generateContent(params)] *)
Definition generateContent (params : GenerateContentParameters)
    : M GenerateContentResponse :=
  fun w => (genAI params, emit (EvGenerate params) w).

(** [app.get('/')] *)
Definition health : M unit :=
  console_log [LStr "Health check hit"] ;;
  res_send (TextBody "🌱 Plant Disease Detection Server is running ✅").

(** [app.post('/predict', upload.single('file'), ...)] *)
Definition predict (req : Request) : M unit :=
  match file req with
  | None =>
      res_status 400 ;;
      res_send_json [("success", VBool false);
                     ("message", VString "No file uploaded.")]
  | Some f =>
      let filePath := path f in
      console_log [LStr "Received file:"; LStr (originalname f)] ;;
      try_catch_finally
        (imageBuffer <- readFileSync filePath ;;
         console_log [LStr "Image buffer read successfully."] ;;
         let imagePart :=
           {| inlineData := Some {| data := Base64.encode imageBuffer;
                                    mimeType := mimetype f |};
              text := None |} in
         let contents :=
           [ {| role := Some "user";
                parts := Some [imagePart;
                               {| inlineData := None;
                                  text := Some textPrompt |}] |} ] in
         console_log [LStr "Sending multimodal prompt to Gemini..."] ;;
         result <- generateContent
           {| model := "gemini-2.5-flash";
              contents := contents;
              safetySettings :=
                [ {| category := HARM_CATEGORY_DANGEROUS_CONTENT;
                     threshold := BLOCK_NONE |};
                  {| category := HARM_CATEGORY_HATE_SPEECH;
                     threshold := BLOCK_NONE |};
                  {| category := HARM_CATEGORY_HARASSMENT;
                     threshold := BLOCK_NONE |};
                  {| category := HARM_CATEGORY_SEXUALLY_EXPLICIT;
                     threshold := BLOCK_NONE |} ] |} ;;
         when (truthy (promptFeedback_blockReason result))
           (console_error [LStr "Request payload:";
                           LPayload "gemini-2.5-flash" contents] ;;
            throw (mkError PlainError
                     ("Content generation blocked: "
                      ++ interpolate (promptFeedback_blockReason result)))) ;;
         when (no_candidates result)
           (throw (mkError PlainError "No candidates returned from API.")) ;;
         responseText <- candidates_0_content_parts_0_text result ;;
         console_log [LStr "Received response from Gemini:"; LOpt responseText] ;;
         res_send_json [("success", VBool true);
                        ("result", of_optional responseText)])
        (fun error =>
           console_error [LStr "Error during prediction:"; LErr error] ;;
           res_status 500 ;;
           res_send_json [("success", VBool false);
                          ("message", VString "Error processing the prediction");
                          ("error", VString (message error))])
        (found <- existsSync filePath ;;
         when found
           (unlinkSync filePath ;;
            console_log [LStr "Uploaded file deleted"]))
  end.

(** [app.get('/test-gemini', ...)] *)
Definition test_gemini : M unit :=
  try_catch
    (let contents :=
       [ {| role := Some "user";
            parts := Some [ {| inlineData := None;
                               text := Some testPrompt |} ] |} ] in
     result <- generateContent
       {| model := "gemini-2.5-flash";
          contents := contents;
          safetySettings :=
            [ {| category := HARM_CATEGORY_DANGEROUS_CONTENT;
                 threshold := BLOCK_NONE |};
              {| category := HARM_CATEGORY_HATE_SPEECH;
                 threshold := BLOCK_NONE |};
              {| category := HARM_CATEGORY_HARASSMENT;
                 threshold := BLOCK_NONE |};
              {| category := HARM_CATEGORY_SEXUALLY_EXPLICIT;
                 threshold := BLOCK_NONE |} ] |} ;;
     when (truthy (promptFeedback_blockReason result))
       (console_error [LStr "Test request payload:";
                       LPayload "gemini-2.5-flash" contents] ;;
        throw (mkError PlainError
                 ("Test content generation blocked: "
                  ++ interpolate (promptFeedback_blockReason result)))) ;;
     when (no_candidates result)
       (throw (mkError PlainError "No candidates returned from API in test.")) ;;
     responseText <- candidates_0_content_parts_0_text result ;;
     console_log [LStr "Test response from Gemini:"; LOpt responseText] ;;
     res_send_json [("success", VBool true);
                    ("message", VString "Gemini API is working correctly.");
                    ("result", of_optional responseText)])
    (fun error =>
       console_error [LStr "Error during Gemini API test interaction:";
                      LErr error] ;;
       res_status 500 ;;
       res_send_json [("success", VBool false);
                      ("message", VString "Error testing the Gemini API");
                      ("error", VString (message error))]).

End Handlers.

End Server.

(** ** Reading a run: what was called, how often, in which order *)
Module Observe.
Import Js GenAI Effects.

Definition is_unlink (p : string) (e : Event) : bool :=
  match e with
  | EvUnlink q => String.eqb q p
  | _ => false
  end.

Definition is_send (e : Event) : bool :=
  match e with
  | EvSend _ _ => true
  | _ => false
  end.

(** The number of [fs.unlinkSync(p)] calls of a run. *)
Definition unlink_calls (p : string) (tr : list Event) : nat :=
  List.length (List.filter (is_unlink p) tr).

(** The responses written, oldest first. *)
Fixpoint sends (tr : list Event) : list (nat * Body) :=
  match tr with
  | [] => []
  | EvSend st b :: tr' => (st, b) :: sends tr'
  | _ :: tr' => sends tr'
  end.

(** The calls made to the external API, oldest first. *)
Fixpoint generate_calls (tr : list Event) : list GenerateContentParameters :=
  match tr with
  | [] => []
  | EvGenerate ps :: tr' => ps :: generate_calls tr'
  | _ :: tr' => generate_calls tr'
  end.

(** Some event satisfying [P] is followed, later in the run, by one
    satisfying [Q]. *)
Fixpoint occurs_before (P Q : Event -> bool) (tr : list Event) : bool :=
  match tr with
  | [] => false
  | e :: tr' => (P e && existsb Q tr') || occurs_before P Q tr'
  end.

(** The events of a run from the first one satisfying [P] on, that
    one excluded. *)
Fixpoint after (P : Event -> bool) (tr : list Event) : list Event :=
  match tr with
  | [] => []
  | e :: tr' => if P e then tr' else after P tr'
  end.

(** The events of a run before the first one satisfying [P]. *)
Fixpoint before (P : Event -> bool) (tr : list Event) : list Event :=
  match tr with
  | [] => []
  | e :: tr' => if P e then [] else e :: before P tr'
  end.

(** Events that neither answer the client nor look at or remove a
    file. *)
Definition quiet (e : Event) : bool :=
  match e with
  | EvSend _ _ | EvExists _ _ | EvUnlink _ => false
  | _ => true
  end.

(** The value of a property of a JSON body. *)
Fixpoint property (k : string) (fields : list (string * Value)) : Value :=
  match fields with
  | [] => VUndefined
  | (k', v) :: rest => if String.eqb k' k then v else property k rest
  end.

Definition body_property (k : string) (b : Body) : Value :=
  match b with
  | JsonBody fields => property k fields
  | TextBody _ => VUndefined
  end.

(** [needle] occurs in [s]. *)
Definition contains (needle s : string) : Prop :=
  exists pre post, s = pre ++ needle ++ post.

End Observe.

(** ** The vocabulary of the specification *)
Module Contract.
Import Js GenAI Effects Node Server.

(** The uniform error envelope [{success:false, message, error}]. *)
Definition failure_envelope (msg err : string) : Body :=
  JsonBody [("success", VBool false); ("message", VString msg);
            ("error", VString err)].

(** The four harm categories of the specification. *)
Definition harm_categories : list HarmCategory :=
  [HARM_CATEGORY_DANGEROUS_CONTENT; HARM_CATEGORY_HATE_SPEECH;
   HARM_CATEGORY_HARASSMENT; HARM_CATEGORY_SEXUALLY_EXPLICIT].

Definition inline_part (d mime : string) : Part :=
  {| inlineData := Some {| data := d; mimeType := mime |}; text := None |}.

Definition text_part (t : string) : Part :=
  {| inlineData := None; text := Some t |}.

Definition user_turn (ps : list Part) : Content :=
  {| role := Some "user"; parts := Some ps |}.

(** The call of the upload route for an upload [f] whose file holds
    the bytes [raw]. *)
Definition predict_call (f : UploadedFile) (raw : list byte)
    : GenerateContentParameters :=
  {| model := "gemini-2.5-flash";
     contents := [user_turn [inline_part (Base64.encode raw) (mimetype f);
                             text_part textPrompt]];
     safetySettings :=
       List.map (fun c => {| category := c; threshold := BLOCK_NONE |})
                harm_categories |}.

(** The call of the diagnostic route. *)
Definition test_call : GenerateContentParameters :=
  {| model := "gemini-2.5-flash";
     contents := [user_turn [text_part testPrompt]];
     safetySettings :=
       List.map (fun c => {| category := c; threshold := BLOCK_NONE |})
                harm_categories |}.

(** The state machine of the specification over the outcome of the
    call: a rejected call, a blocked prompt, no candidate, or the text
    of the first part of the first candidate ([Malformed] when the
    first candidate has no such part). *)
Inductive Handling :=
| Rejected (e : JsError)
| Blocked (reason : string)
| NoResult
| Extracted (t : option string)
| Malformed (e : JsError).

Definition first_part (result : GenerateContentResponse) : JsError + Part :=
  match candidates result with
  | Some (c :: _) =>
      match content c with
      | None => inl (undefined_read "parts")
      | Some ct =>
          match parts ct with
          | None => inl (undefined_read "0")
          | Some [] => inl (undefined_read "text")
          | Some (p :: _) => inr p
          end
      end
  | Some [] => inl (undefined_read "content")
  | None => inl (undefined_read "0")
  end.

Definition handling (o : JsError + GenerateContentResponse) : Handling :=
  match o with
  | inl e => Rejected e
  | inr result =>
      if truthy (promptFeedback_blockReason result)
      then Blocked (interpolate (promptFeedback_blockReason result))
      else if no_candidates result then NoResult
      else match first_part result with
           | inr p => Extracted (text p)
           | inl e => Malformed e
           end
  end.

(** What each route answers in each state: the two differ in wording
    only. *)
Definition predict_reply (h : Handling) : nat * Body :=
  match h with
  | Extracted t =>
      (200, JsonBody (stringify [("success", VBool true);
                                 ("result", of_optional t)]))
  | Blocked reason =>
      (500, failure_envelope "Error processing the prediction"
              ("Content generation blocked: " ++ reason))
  | NoResult =>
      (500, failure_envelope "Error processing the prediction"
              "No candidates returned from API.")
  | Rejected e | Malformed e =>
      (500, failure_envelope "Error processing the prediction" (message e))
  end.

Definition test_reply (h : Handling) : nat * Body :=
  match h with
  | Extracted t =>
      (200, JsonBody (stringify [("success", VBool true);
                                 ("message", VString "Gemini API is working correctly.");
                                 ("result", of_optional t)]))
  | Blocked reason =>
      (500, failure_envelope "Error testing the Gemini API"
              ("Test content generation blocked: " ++ reason))
  | NoResult =>
      (500, failure_envelope "Error testing the Gemini API"
              "No candidates returned from API in test.")
  | Rejected e | Malformed e =>
      (500, failure_envelope "Error testing the Gemini API" (message e))
  end.

(** The answer of the upload route: the read of the temporary file
    may fail before the call is made. *)
Definition predict_answer
    (genAI : GenerateContentParameters -> JsError + GenerateContentResponse)
    (f : UploadedFile) (files : gmap string File) : nat * Body :=
  match read files (path f) with
  | inl e => (500, failure_envelope "Error processing the prediction" (message e))
  | inr raw => predict_reply (handling (genAI (predict_call f raw)))
  end.

(** The calls the upload route makes: one, when the file could be read. *)
Definition predict_calls (f : UploadedFile) (files : gmap string File)
    : list GenerateContentParameters :=
  match read files (path f) with
  | inl _ => []
  | inr raw => [predict_call f raw]
  end.

(** What the [finally] block does to the file at [p]. *)
Definition cleanup_events (p : string) (files : gmap string File) : list Event :=
  match files !! p with
  | None => [EvExists p false]
  | Some fl =>
      EvExists p true :: EvUnlink p ::
      match unlinkError fl with
      | None => [EvConsole Stdout [LStr "Uploaded file deleted"]]
      | Some _ => []
      end
  end.

Definition cleanup_completion (p : string) (files : gmap string File)
    : JsError + unit :=
  match files !! p with
  | None => inr tt
  | Some fl =>
      match unlinkError fl with
      | None => inr tt
      | Some msg => inl (mkError SystemError msg)
      end
  end.

Definition cleanup_files (p : string) (files : gmap string File)
    : gmap string File :=
  match files !! p with
  | None => files
  | Some fl =>
      match unlinkError fl with
      | None => delete p files
      | Some _ => files
      end
  end.

(** The order the specification asks for: the removal of the file at
    [p] comes before the response. *)
Definition deleted_before_response (p : string) (tr : list Event) : Prop :=
  Observe.occurs_before (Observe.is_unlink p) Observe.is_send tr = true.

(** The file [fl] with the deletion fault removed. *)
Definition deletable (fl : File) : File :=
  {| bytes := bytes fl; readError := readError fl; unlinkError := None |}.

End Contract.

(** ** Concrete requests, files and upstream answers *)
Module Scenario.
Import Js GenAI Effects Node Server.

Definition leaf_path : string := "/tmp/uploads/3f2a9c".

Definition upload : UploadedFile :=
  {| path := leaf_path; originalname := "leaf.jpg"; mimetype := "image/jpeg" |}.

Definition jpeg : list byte := [xff; xd8; xff; xe0; x00; x10; x4a].

Definition leaf : File :=
  {| bytes := jpeg; readError := None; unlinkError := None |}.

(** The same file in a directory the process may not modify. *)
Definition locked_leaf : File :=
  {| bytes := jpeg; readError := None;
     unlinkError := Some "EPERM: operation not permitted, unlink" |}.

Definition disk : gmap string File := {[ leaf_path := leaf ]}.

Definition locked_disk : gmap string File := {[ leaf_path := locked_leaf ]}.

Definition with_file : Request := {| file := Some upload |}.

Definition without_file : Request := {| file := None |}.

(** An upstream that resolves every call to [result]. *)
Definition answers (result : GenerateContentResponse)
    : GenerateContentParameters -> JsError + GenerateContentResponse :=
  fun _ => inr result.

Definition diagnosis : GenerateContentResponse :=
  {| promptFeedback := None;
     candidates :=
       Some [ {| content :=
                   Some {| role := Some "model";
                           parts := Some [ {| inlineData := None;
                                              text := Some "Disease Name: Leaf Spot" |} ] |} |} ] |}.

(** One candidate whose content has an empty part list. *)
Definition hollow : GenerateContentResponse :=
  {| promptFeedback := None;
     candidates :=
       Some [ {| content := Some {| role := Some "model"; parts := Some [] |} |} ] |}.

Definition refused : GenerateContentResponse :=
  {| promptFeedback := Some {| blockReason := Some "SAFETY" |};
     candidates := None |}.

Definition silent : GenerateContentResponse :=
  {| promptFeedback := None; candidates := Some [] |}.

End Scenario.

(** ** Start of the process: the environment, the client, the port *)
Module Boot.
Import Js Effects.

(** [process.env.PORT || 5005]: the variable's text, or the number. *)
Inductive Port :=
| FromEnv (s : string)
| Fallback (n : N).

(** How far the script gets on its own: [process.exit(code)], or the
    call [app.listen(port, callback)] with the client built from the
    key.  [announce] is the line the callback writes once the server
    listens; whether it comes to listen (the port may be out of range or
    taken) is decided by Node, not by the script. *)
Inductive Outcome :=
| Exited (code : N)
| ListenCalled (apiKey : option string) (port : Port) (announce : string).

Record Run := {
  console : list (Stream * string);
  outcome : Outcome
}.

(** A port spliced into a template literal. *)
Definition port_text (p : Port) : string :=
  match p with
  | FromEnv s => s
  | Fallback n => NilZero.string_of_uint (N.to_uint n)
  end.

(** [value || fallback] on an environment variable. *)
Definition or_number (value : option string) (fallback : N) : Port :=
  match value with
  | Some s => if truthy (Some s) then FromEnv s else Fallback fallback
  | None => Fallback fallback
  end.

(** The top level of src/index.js, from the environment on: the key is
    checked before anything is served, the port is chosen last.  The
    console holds what is written up to the call of [app.listen]. *)
Definition main (env : gmap string string) : Run :=
  let apiKey := env !! "GOOGLE_API_KEY" in
  if negb (truthy apiKey) then
    {| console :=
         [(Stderr, "GOOGLE_API_KEY is not set in the environment variables.")];
       outcome := Exited 1 |}
  else
    let PORT := or_number (env !! "PORT") 5005 in
    {| console :=
         [(Stdout, "Initializing Gemini client with API key from environment.")];
       outcome :=
         ListenCalled apiKey PORT
           ("Server running on http://localhost:" ++ port_text PORT) |}.

End Boot.

(** ** More readings of a run *)
Module Journal.
Import Js GenAI Effects.

(** What went to [console.error], oldest first. *)
Fixpoint stderr (tr : list Event) : list (list LogArg) :=
  match tr with
  | [] => []
  | EvConsole Stderr args :: tr' => args :: stderr tr'
  | _ :: tr' => stderr tr'
  end.

(** Events that read, look for or remove a file. *)
Definition touches_files (e : Event) : bool :=
  match e with
  | EvReadFile _ | EvExists _ _ | EvUnlink _ => true
  | _ => false
  end.

End Journal.

(** ** More files and upstream answers *)
Module Cases.
Import Js GenAI Effects Node Server.

(** A file the process may not read. *)
Definition sealed_leaf : File :=
  {| bytes := Scenario.jpeg;
     readError := Some "EACCES: permission denied, open";
     unlinkError := None |}.

Definition sealed_disk : gmap string File := {[ Scenario.leaf_path := sealed_leaf ]}.

(** A second upload waiting next to the first. *)
Definition other_path : string := "/tmp/uploads/77b0e1".

Definition two_files : gmap string File :=
  <[ other_path := Scenario.leaf ]> Scenario.disk.

(** The same upload under another original name. *)
Definition renamed : UploadedFile :=
  {| path := Scenario.leaf_path; originalname := "IMG_0042.JPG";
     mimetype := "image/jpeg" |}.

(** A different picture, sent as PNG. *)
Definition png : list byte := [x89; x50; x4e; x47].

Definition png_upload : UploadedFile :=
  {| path := other_path; originalname := "leaf.png"; mimetype := "image/png" |}.

Definition png_disk : gmap string File :=
  {[ other_path := {| bytes := png; readError := None; unlinkError := None |} ]}.

(** An upstream that rejects every call. *)
Definition offline : GenerateContentParameters -> JsError + GenerateContentResponse :=
  fun _ => inl (mkError ApiError "fetch failed").

(** One candidate whose first part is not a text part. *)
Definition textless : GenerateContentResponse :=
  {| promptFeedback := None;
     candidates :=
       Some [ {| content :=
                   Some {| role := Some "model";
                           parts := Some [ {| inlineData :=
                                                Some {| data := "AAAA";
                                                        mimeType := "image/png" |};
                                              text := None |} ] |} |} ] |}.

(** One candidate without content. *)
Definition contentless : GenerateContentResponse :=
  {| promptFeedback := None; candidates := Some [ {| content := None |} ] |}.

Definition with_key : gmap string string :=
  {[ "GOOGLE_API_KEY" := "k-123" ]}.

Definition with_key_and_port : gmap string string :=
  <[ "PORT" := "8080" ]> with_key.

Definition with_empty_key : gmap string string :=
  {[ "GOOGLE_API_KEY" := "" ]}.

End Cases.

(** * Properties *)

Import Js GenAI Effects Node Server Observe Contract.

(** Symbolic execution of a handler: unfold the monad, the runtime calls
    and the handlers, and nothing of the file-system map or of strings. *)
Ltac exec :=
  cbv beta iota zeta delta
    [predict test_gemini health generateContent
     try_catch_finally try_catch bind when ret throw
     readFileSync existsSync unlinkSync console_log console_error
     res_status res_send res_send_json emit fresh
     fs statusCode response trace file
     candidates_0_content_parts_0_text no_candidates interpolate
     stringify List.filter is_undefined negb snd fst of_optional app
     List.length Nat.eqb read unlink].

(** Unfold the vocabulary of the specification. *)
Ltac spell_out :=
  cbv beta iota zeta delta
    [predict_call test_call user_turn inline_part text_part harm_categories
     List.map failure_envelope predict_reply test_reply handling first_part
     predict_answer predict_calls cleanup_events cleanup_completion
     cleanup_files read unlink] in *.

(** Run as far as the facts at hand about the files and the upstream
    allow. *)
Ltac run_handler :=
  repeat first
    [ progress exec
    | match goal with H : ?x = _ |- context [?x] => rewrite H end ].

(** At the end of a run: the quiet prefix is what comes before the
    response. *)
Ltac leaf :=
  match goal with
  | |- exists pre, ?tr = _ /\ _ =>
      exists (before is_send tr); repeat split
  end.

(** *** Base64 on the test vectors of RFC 4648 *)

Example base64_rfc4648 :
  List.map (fun s => Base64.encode (list_byte_of_string s))
           [""; "f"; "fo"; "foo"; "foob"; "fooba"; "foobar"]
  = [""; "Zg=="; "Zm8="; "Zm9v"; "Zm9vYg=="; "Zm9vYmE="; "Zm9vYmFy"].
Proof. vm_compute. reflexivity. Qed.

(** *** Base64: the decoder inverts the encoder *)

Module Base64Facts.
Import Base64.

Lemma every_byte_spec (P : byte -> bool) :
  every_byte P = true -> forall b, P b = true.
Proof.
  unfold every_byte. intros H b.
  rewrite forallb_forall in H.
  specialize (H (Byte.to_nat b)).
  rewrite Byte.of_to_nat in H. apply H.
  apply in_seq. pose proof (Byte.to_nat_bounded b). lia.
Qed.

Lemma every_pair_spec (P : byte -> byte -> bool) :
  every_pair P = true -> forall a b, P a b = true.
Proof.
  intros H a b.
  apply (every_byte_spec (P a)).
  apply (every_byte_spec (fun a => every_byte (P a)) H a).
Qed.

Lemma reads_back_value n : reads_back n = true -> value (digit n) = Some n.
Proof.
  unfold reads_back. destruct (value (digit n)) as [m |]; [ | discriminate ].
  intros H. apply N.eqb_eq in H. now subst.
Qed.

Lemma value_sextet0 a : value (digit (sextet0 a)) = Some (sextet0 a).
Proof.
  apply reads_back_value.
  apply (every_byte_spec (fun a => reads_back (sextet0 a))).
  vm_compute. reflexivity.
Qed.

Lemma value_sextet1 a b : value (digit (sextet1 a b)) = Some (sextet1 a b).
Proof.
  apply reads_back_value.
  apply (every_pair_spec (fun a b => reads_back (sextet1 a b))).
  vm_compute. reflexivity.
Qed.

Lemma value_sextet2 b c : value (digit (sextet2 b c)) = Some (sextet2 b c).
Proof.
  apply reads_back_value.
  apply (every_pair_spec (fun b c => reads_back (sextet2 b c))).
  vm_compute. reflexivity.
Qed.

Lemma value_sextet3 c : value (digit (sextet3 c)) = Some (sextet3 c).
Proof.
  apply reads_back_value.
  apply (every_byte_spec (fun c => reads_back (sextet3 c))).
  vm_compute. reflexivity.
Qed.

(** The three bytes of a group, recovered from its sextets. *)
Lemma first_octet a b :
  octet (N.lor (N.shiftl (sextet0 a) 2) (N.shiftr (sextet1 a b) 4)) = a.
Proof.
  apply Byte.byte_dec_bl.
  apply (every_pair_spec
           (fun a b => Byte.eqb
              (octet (N.lor (N.shiftl (sextet0 a) 2) (N.shiftr (sextet1 a b) 4))) a)).
  vm_compute. reflexivity.
Qed.

Lemma sextet1_low a b : N.land (sextet1 a b) 15 = N.shiftr (Byte.to_N b) 4.
Proof.
  apply N.eqb_eq.
  apply (every_pair_spec
           (fun a b => N.eqb (N.land (sextet1 a b) 15) (N.shiftr (Byte.to_N b) 4))).
  vm_compute. reflexivity.
Qed.

Lemma sextet2_high b c : N.shiftr (sextet2 b c) 2 = N.land (Byte.to_N b) 15.
Proof.
  apply N.eqb_eq.
  apply (every_pair_spec
           (fun b c => N.eqb (N.shiftr (sextet2 b c) 2) (N.land (Byte.to_N b) 15))).
  vm_compute. reflexivity.
Qed.

Lemma second_octet a b c :
  octet (N.lor (N.shiftl (N.land (sextet1 a b) 15) 4) (N.shiftr (sextet2 b c) 2))
  = b.
Proof.
  rewrite sextet1_low, sextet2_high.
  apply Byte.byte_dec_bl.
  apply (every_byte_spec
           (fun b => Byte.eqb
              (octet (N.lor (N.shiftl (N.shiftr (Byte.to_N b) 4) 4)
                            (N.land (Byte.to_N b) 15))) b)).
  vm_compute. reflexivity.
Qed.

Lemma third_octet b c :
  octet (N.lor (N.shiftl (N.land (sextet2 b c) 3) 6) (sextet3 c)) = c.
Proof.
  apply Byte.byte_dec_bl.
  apply (every_pair_spec
           (fun b c => Byte.eqb
              (octet (N.lor (N.shiftl (N.land (sextet2 b c) 3) 6) (sextet3 c))) c)).
  vm_compute. reflexivity.
Qed.

Lemma decode_group c0 c1 c2 c3 rest :
  decode (String c0 (String c1 (String c2 (String c3 rest))))
  = match value c0, value c1 with
    | Some v0, Some v1 =>
        let a := octet (N.lor (N.shiftl v0 2) (N.shiftr v1 4)) in
        match value c2 with
        | None =>
            if Ascii.eqb c2 pad && Ascii.eqb c3 pad && is_empty rest
            then Some [a] else None
        | Some v2 =>
            let b := octet (N.lor (N.shiftl (N.land v1 15) 4) (N.shiftr v2 2)) in
            match value c3 with
            | None =>
                if Ascii.eqb c3 pad && is_empty rest
                then Some [a; b] else None
            | Some v3 =>
                let c := octet (N.lor (N.shiftl (N.land v2 3) 6) v3) in
                match decode rest with
                | Some tl => Some (a :: b :: c :: tl)
                | None => None
                end
            end
        end
    | _, _ => None
    end.
Proof. reflexivity. Qed.

(** Induction over a list, three elements at a time. *)
Lemma list_ind3 {A} (P : list A -> Prop) :
  P [] -> (forall a, P [a]) -> (forall a b, P [a; b]) ->
  (forall a b c l, P l -> P (a :: b :: c :: l)) ->
  forall l, P l.
Proof.
  intros H0 H1 H2 H3 l.
  enough (P l /\ (forall a, P (a :: l)) /\ (forall a b, P (a :: b :: l))) by tauto.
  induction l as [| x l (IH0 & IH1 & IH2)]; [ auto | ].
  split; [ apply IH1 | split; [ intros a; apply IH2 | intros a b; apply H3, IH0 ] ].
Qed.

(** The encoder loses nothing: decoding gives the bytes back. *)
Theorem decode_encode (bs : list byte) : decode (encode bs) = Some bs.
Proof.
  induction bs as [| a | a b | a b c rest IH] using list_ind3.
  - reflexivity.
  - change (encode [a])
      with (String (digit (sextet0 a)) (String (digit (sextet1 a x00))
              (String pad (String pad EmptyString)))).
    rewrite decode_group, value_sextet0, value_sextet1.
    cbv zeta. rewrite first_octet. reflexivity.
  - change (encode [a; b])
      with (String (digit (sextet0 a)) (String (digit (sextet1 a b))
              (String (digit (sextet2 b x00)) (String pad EmptyString)))).
    rewrite decode_group, value_sextet0, value_sextet1, value_sextet2.
    cbv zeta. rewrite first_octet, second_octet. reflexivity.
  - change (encode (a :: b :: c :: rest))
      with (String (digit (sextet0 a)) (String (digit (sextet1 a b))
              (String (digit (sextet2 b c)) (String (digit (sextet3 c))
                 (encode rest))))).
    rewrite decode_group, value_sextet0, value_sextet1, value_sextet2,
      value_sextet3.
    cbv zeta. rewrite IH, first_octet, second_octet, third_octet. reflexivity.
Qed.

Corollary encode_inj (bs1 bs2 : list byte) :
  encode bs1 = encode bs2 -> bs1 = bs2.
Proof.
  intros H. apply (f_equal decode) in H.
  rewrite !decode_encode in H. congruence.
Qed.

End Base64Facts.

(** *** The runs of the two routes that call upstream *)

(** The upload route with a file, whatever the files and the upstream
    do: the events up to the response are quiet and hold the call to the
    API (if the file could be read); then comes the one response, then
    the events of the [finally] block. *)
Lemma predict_run genAI (f : UploadedFile) (files : gmap string File) :
  let '(r, w) := predict genAI {| file := Some f |} (fresh files) in
  exists pre : list Event,
    trace w
    = (pre ++ EvSend (fst (predict_answer genAI f files))
                     (snd (predict_answer genAI f files))
           :: cleanup_events (path f) files)%list
    /\ forallb quiet pre = true
    /\ generate_calls pre = predict_calls f files
    /\ response w = Some (predict_answer genAI f files)
    /\ r = cleanup_completion (path f) files
    /\ fs w = cleanup_files (path f) files.
Proof.
  spell_out. run_handler.
  destruct (files !! path f) as [fl |] eqn:Hfile; run_handler; [ | leaf ].
  destruct (unlinkError fl) as [uerr |] eqn:Hunlink;
  (destruct (readError fl) as [rerr |] eqn:Hread; run_handler; [ leaf | ];
  destruct (genAI _) as [e | result] eqn:Hcall; run_handler; [ leaf | ];
  destruct (truthy (promptFeedback_blockReason result)) eqn:Hblock;
    run_handler; [ leaf | ];
  destruct (candidates result) as [[| c cs] |] eqn:Hcands;
    run_handler; [ leaf | | leaf ];
  destruct (content c) as [ct |] eqn:Hcontent; run_handler; [ | leaf ];
  destruct (parts ct) as [[| p ps] |] eqn:Hparts; run_handler; [ leaf | | leaf ];
  destruct (text p) as [t |] eqn:Htext; run_handler; leaf).
Qed.

(** The diagnostic route: one call, one response, no file touched. *)
Lemma test_gemini_run genAI (files : gmap string File) :
  let '(r, w) := test_gemini genAI (fresh files) in
  r = inr tt
  /\ fs w = files
  /\ response w = Some (test_reply (handling (genAI test_call)))
  /\ sends (trace w) = [test_reply (handling (genAI test_call))]
  /\ generate_calls (trace w) = [test_call].
Proof.
  spell_out. run_handler.
  destruct (genAI _) as [e | result] eqn:Hcall; run_handler; [ repeat split | ].
  destruct (truthy (promptFeedback_blockReason result)) eqn:Hblock;
    run_handler; [ repeat split | ].
  destruct (candidates result) as [[| c cs] |] eqn:Hcands;
    run_handler; [ repeat split | | repeat split ].
  destruct (content c) as [ct |] eqn:Hcontent; run_handler; [ | repeat split ].
  destruct (parts ct) as [[| p ps] |] eqn:Hparts;
    run_handler; [ repeat split | | repeat split ].
  destruct (text p) as [t |] eqn:Htext; run_handler; repeat split.
Qed.

(** *** Observations on a run that starts with quiet events *)

Section Traces.
Variable pre : list Event.
Hypothesis pre_quiet : forallb quiet pre = true.

Lemma sends_quiet tr : sends (pre ++ tr) = sends tr.
Proof.
  induction pre as [| e l IH]; [ reflexivity | ].
  simpl in pre_quiet. apply andb_true_iff in pre_quiet as [He Hl].
  destruct e; try discriminate; simpl; auto.
Qed.

Lemma unlink_calls_quiet p tr : unlink_calls p (pre ++ tr) = unlink_calls p tr.
Proof.
  unfold unlink_calls.
  induction pre as [| e l IH]; [ reflexivity | ].
  simpl in pre_quiet. apply andb_true_iff in pre_quiet as [He Hl].
  destruct e; try discriminate; simpl; auto.
Qed.

Lemma after_quiet P tr :
  (forall e, quiet e = true -> P e = false) ->
  after P (pre ++ tr) = after P tr.
Proof.
  intros HP.
  induction pre as [| e l IH]; [ reflexivity | ].
  simpl in pre_quiet. apply andb_true_iff in pre_quiet as [He Hl].
  simpl. rewrite (HP e He). auto.
Qed.

Lemma occurs_before_quiet P Q tr :
  (forall e, quiet e = true -> P e = false) ->
  occurs_before P Q (pre ++ tr) = occurs_before P Q tr.
Proof.
  intros HP.
  induction pre as [| e l IH]; [ reflexivity | ].
  simpl in pre_quiet. apply andb_true_iff in pre_quiet as [He Hl].
  simpl. rewrite (HP e He). simpl. auto.
Qed.
End Traces.

Lemma generate_calls_app tr1 tr2 :
  generate_calls (tr1 ++ tr2) = (generate_calls tr1 ++ generate_calls tr2)%list.
Proof.
  induction tr1 as [| e l IH]; [ reflexivity | ].
  destruct e; simpl; rewrite ?IH; reflexivity.
Qed.

Lemma quiet_not_unlink p e : quiet e = true -> is_unlink p e = false.
Proof. destruct e; simpl; congruence. Qed.

Lemma quiet_not_send e : quiet e = true -> is_send e = false.
Proof. destruct e; simpl; congruence. Qed.

Lemma generate_calls_cleanup p files : generate_calls (cleanup_events p files) = [].
Proof.
  unfold cleanup_events. destruct (files !! p) as [fl |]; [ | reflexivity ].
  destruct (unlinkError fl); reflexivity.
Qed.

(** *** Strings *)

Lemma append_empty_r (s : string) : s ++ "" = s.
Proof.
  induction s as [| a s IH]; [ reflexivity | ].
  change (String a (s ++ "") = String a s). now rewrite IH.
Qed.

Lemma contains_suffix (pre needle : string) : contains needle (pre ++ needle).
Proof. exists pre, "". now rewrite append_empty_r. Qed.

(** *** The answer and the call of the upload route when the file can be
    read *)

Lemma predict_answer_readable genAI (f : UploadedFile) (files : gmap string File) fl :
  files !! path f = Some fl -> readError fl = None ->
  predict_answer genAI f files
  = predict_reply (handling (genAI (predict_call f (bytes fl)))).
Proof.
  intros Hfile Hread. unfold predict_answer, read. now rewrite Hfile, Hread.
Qed.

Lemma predict_calls_readable (f : UploadedFile) (files : gmap string File) fl :
  files !! path f = Some fl -> readError fl = None ->
  predict_calls f files = [predict_call f (bytes fl)].
Proof.
  intros Hfile Hread. unfold predict_calls, read. now rewrite Hfile, Hread.
Qed.

(** A response that reports neither a block nor an empty candidate list
    is handled by reading the first part of the first candidate. *)
Lemma handling_first_part result c cs :
  truthy (promptFeedback_blockReason result) = false ->
  candidates result = Some (c :: cs) ->
  handling (inr result)
  = match first_part result with
    | inr p => Extracted (text p)
    | inl e => Malformed e
    end.
Proof.
  intros Hblock Hcands. unfold handling, no_candidates.
  now rewrite Hblock, Hcands.
Qed.

(** Use [predict_run] for the run at hand: name its outcome [r], its
    final world [w] and the quiet prefix [pre] of its events. *)
Ltac with_predict_run genAI f files r w pre :=
  let Hrun := fresh "Hrun" in
  pose proof (predict_run genAI f files) as Hrun;
  destruct (predict genAI {| file := Some f |} (fresh files)) as [r w];
  destruct Hrun as (pre & Htrace & Hquiet & Hcalls & Hresponse & Hr & Hfs).

(** *** The request sent upstream *)

(** The argument of the call: when the uploaded file can be read, the
    upload route calls [generateContent] exactly once; the argument has
    the keys [model], [contents] and [safetySettings]: one user turn
    made of the inline part (the base64 encoding of the file's bytes,
    tagged with the upload's media type) followed by the fixed
    instruction, and the four harm categories at [BLOCK_NONE]; the
    inline data decodes back to the bytes of the file. *)
Lemma predict_request genAI (f : UploadedFile) (files : gmap string File) fl :
  files !! path f = Some fl -> readError fl = None ->
  let '(r, w) := predict genAI {| file := Some f |} (fresh files) in
  generate_calls (trace w)
  = [ {| model := "gemini-2.5-flash";
         contents :=
           [ {| role := Some "user";
                parts :=
                  Some [ {| inlineData :=
                              Some {| data := Base64.encode (bytes fl);
                                      mimeType := mimetype f |};
                            text := None |};
                         {| inlineData := None; text := Some textPrompt |} ] |} ];
         safetySettings :=
           [ {| category := HARM_CATEGORY_DANGEROUS_CONTENT; threshold := BLOCK_NONE |};
             {| category := HARM_CATEGORY_HATE_SPEECH; threshold := BLOCK_NONE |};
             {| category := HARM_CATEGORY_HARASSMENT; threshold := BLOCK_NONE |};
             {| category := HARM_CATEGORY_SEXUALLY_EXPLICIT; threshold := BLOCK_NONE |} ] |} ]
  /\ Base64.decode (Base64.encode (bytes fl)) = Some (bytes fl).
Proof.
  intros Hfile Hread. with_predict_run genAI f files r w pre.
  split; [ | apply Base64Facts.decode_encode ].
  rewrite Htrace, generate_calls_app, Hcalls.
  rewrite (predict_calls_readable f files fl Hfile Hread).
  simpl. rewrite generate_calls_cleanup. reflexivity.
Qed.

(** C7, a defect of the code: for an upload of a few JPEG bytes the
    upload route makes one call whose argument holds the inline part
    with the base64 data and the media type, then the fixed instruction,
    and holds the four [BLOCK_NONE] settings under its own key
    [safetySettings], beside [model] and [contents].  The vendor client
    takes its safety settings from the [config] key of the argument, and
    this argument has none: the settings the handler builds are not part
    of what the client submits. *)
Theorem predict_safety_settings_misplaced :
  let '(r, w) := predict (Scenario.answers Scenario.diagnosis)
                         Scenario.with_file (fresh Scenario.disk) in
  generate_calls (trace w)
  = [ {| model := "gemini-2.5-flash";
         contents :=
           [ {| role := Some "user";
                parts :=
                  Some [ {| inlineData :=
                              Some {| data := "/9j/4AAQSg==";
                                      mimeType := "image/jpeg" |};
                            text := None |};
                         {| inlineData := None; text := Some textPrompt |} ] |} ];
         safetySettings :=
           [ {| category := HARM_CATEGORY_DANGEROUS_CONTENT; threshold := BLOCK_NONE |};
             {| category := HARM_CATEGORY_HATE_SPEECH; threshold := BLOCK_NONE |};
             {| category := HARM_CATEGORY_HARASSMENT; threshold := BLOCK_NONE |};
             {| category := HARM_CATEGORY_SEXUALLY_EXPLICIT; threshold := BLOCK_NONE |} ] |} ]
  /\ Base64.decode "/9j/4AAQSg==" = Some Scenario.jpeg.
Proof.
  apply (predict_request (Scenario.answers Scenario.diagnosis)
           Scenario.upload Scenario.disk Scenario.leaf);
    reflexivity.
Qed.

(** *** Handling of the upstream answer *)

(** C3, as stated, fails: an answer that is not blocked and has one
    candidate, whose content has an empty part list, is answered 500. *)
Lemma predict_candidate_without_text :
  let '(r, w) := predict (Scenario.answers Scenario.hollow)
                         Scenario.with_file (fresh Scenario.disk) in
  Scenario.answers Scenario.hollow (predict_call Scenario.upload Scenario.jpeg)
  = inr Scenario.hollow
  /\ truthy (promptFeedback_blockReason Scenario.hollow) = false
  /\ (exists c cs, candidates Scenario.hollow = Some (c :: cs))
  /\ response w
     = Some (500, failure_envelope "Error processing the prediction"
                    "Cannot read properties of undefined (reading 'text')")
  /\ ~ (exists t, response w
                  = Some (200, JsonBody [("success", VBool true);
                                         ("result", VString t)])).
Proof.
  vm_compute. repeat split.
  - eexists _, _. reflexivity.
  - intros [t Ht]. discriminate Ht.
Qed.

(** C3, amended: when the call succeeds, is not blocked, and the first
    candidate's content has a first part that carries a text, the route
    answers 200 with [{success:true, result:<that text>}]. *)
Theorem predict_success genAI (f : UploadedFile) (files : gmap string File) fl
    result c cs ct p ps t :
  files !! path f = Some fl -> readError fl = None ->
  genAI (predict_call f (bytes fl)) = inr result ->
  truthy (promptFeedback_blockReason result) = false ->
  candidates result = Some (c :: cs) ->
  content c = Some ct -> parts ct = Some (p :: ps) -> text p = Some t ->
  let '(r, w) := predict genAI {| file := Some f |} (fresh files) in
  response w
  = Some (200, JsonBody [("success", VBool true); ("result", VString t)])
  /\ sends (trace w)
     = [(200, JsonBody [("success", VBool true); ("result", VString t)])].
Proof.
  intros Hfile Hread Hcall Hblock Hcands Hcontent Hparts Htext.
  with_predict_run genAI f files r w pre.
  rewrite Htrace, (sends_quiet pre Hquiet), Hresponse.
  rewrite (predict_answer_readable genAI f files fl Hfile Hread), Hcall.
  rewrite (handling_first_part result c cs Hblock Hcands).
  unfold first_part. rewrite Hcands, Hcontent, Hparts, Htext.
  split; [ reflexivity | ].
  simpl. unfold cleanup_events. rewrite Hfile.
  destruct (unlinkError fl); reflexivity.
Qed.

Lemma predict_success_witness :
  let '(r, w) := predict (Scenario.answers Scenario.diagnosis)
                         Scenario.with_file (fresh Scenario.disk) in
  response w
  = Some (200, JsonBody [("success", VBool true);
                         ("result", VString "Disease Name: Leaf Spot")])
  /\ sends (trace w)
     = [(200, JsonBody [("success", VBool true);
                        ("result", VString "Disease Name: Leaf Spot")])].
Proof.
  eapply (predict_success (Scenario.answers Scenario.diagnosis)
            Scenario.upload Scenario.disk Scenario.leaf Scenario.diagnosis);
    reflexivity.
Defined.

(** C4: when the upstream answer carries a block reason, the route
    answers 500 with the error envelope, and its [error] field is
    the blocked-generation message ending in the vendor's reason. *)
Theorem predict_blocked genAI (f : UploadedFile) (files : gmap string File) fl
    result reason :
  files !! path f = Some fl -> readError fl = None ->
  genAI (predict_call f (bytes fl)) = inr result ->
  promptFeedback_blockReason result = Some reason -> reason <> "" ->
  let '(r, w) := predict genAI {| file := Some f |} (fresh files) in
  exists err,
    response w
    = Some (500, JsonBody [("success", VBool false);
                           ("message", VString "Error processing the prediction");
                           ("error", VString err)])
    /\ err = "Content generation blocked: " ++ reason
    /\ contains reason err.
Proof.
  intros Hfile Hread Hcall Hreason Hne.
  assert (Htruthy : truthy (Some reason) = true).
  { unfold truthy. apply negb_true_iff, String.eqb_neq, Hne. }
  with_predict_run genAI f files r w pre.
  rewrite Hresponse, (predict_answer_readable genAI f files fl Hfile Hread), Hcall.
  unfold handling. rewrite Hreason, Htruthy.
  eexists. split; [ reflexivity | split; [ reflexivity | apply contains_suffix ] ].
Qed.

Lemma predict_blocked_witness :
  let '(r, w) := predict (Scenario.answers Scenario.refused)
                         Scenario.with_file (fresh Scenario.disk) in
  exists err,
    response w
    = Some (500, JsonBody [("success", VBool false);
                           ("message", VString "Error processing the prediction");
                           ("error", VString err)])
    /\ err = "Content generation blocked: " ++ "SAFETY"
    /\ contains "SAFETY" err.
Proof.
  apply (predict_blocked (Scenario.answers Scenario.refused)
           Scenario.upload Scenario.disk Scenario.leaf Scenario.refused "SAFETY");
    solve [ reflexivity | discriminate ].
Defined.

(** C5: when the upstream answer has no block reason and no candidate
    (the list absent or empty), the route answers 500 with the error
    envelope whose [error] is the no-candidates message. *)
Theorem predict_no_candidates genAI (f : UploadedFile) (files : gmap string File)
    fl result :
  files !! path f = Some fl -> readError fl = None ->
  genAI (predict_call f (bytes fl)) = inr result ->
  truthy (promptFeedback_blockReason result) = false ->
  candidates result = None \/ candidates result = Some [] ->
  let '(r, w) := predict genAI {| file := Some f |} (fresh files) in
  response w
  = Some (500, JsonBody [("success", VBool false);
                         ("message", VString "Error processing the prediction");
                         ("error", VString "No candidates returned from API.")]).
Proof.
  intros Hfile Hread Hcall Hblock Hcands.
  with_predict_run genAI f files r w pre.
  rewrite Hresponse, (predict_answer_readable genAI f files fl Hfile Hread), Hcall.
  unfold handling, no_candidates. rewrite Hblock.
  destruct Hcands as [-> | ->]; reflexivity.
Qed.

Lemma predict_no_candidates_witness :
  let '(r, w) := predict (Scenario.answers Scenario.silent)
                         Scenario.with_file (fresh Scenario.disk) in
  response w
  = Some (500, JsonBody [("success", VBool false);
                         ("message", VString "Error processing the prediction");
                         ("error", VString "No candidates returned from API.")]).
Proof.
  apply (predict_no_candidates (Scenario.answers Scenario.silent)
           Scenario.upload Scenario.disk Scenario.leaf Scenario.silent);
    solve [ reflexivity | right; reflexivity ].
Defined.

(** C8: when the first candidate's content has no parts (absent or an
    empty list), the exception of the member access does not leave the
    handler: the route answers with the 500 error envelope (carrying the
    TypeError's message unless the prompt was reported blocked), and the
    [finally] block still checks for the file and removes it.  The
    handler completes normally unless that removal itself fails. *)
Theorem predict_parts_missing genAI (f : UploadedFile) (files : gmap string File)
    fl result c cs ct :
  files !! path f = Some fl -> readError fl = None ->
  genAI (predict_call f (bytes fl)) = inr result ->
  candidates result = Some (c :: cs) -> content c = Some ct ->
  parts ct = None \/ parts ct = Some [] ->
  let '(r, w) := predict genAI {| file := Some f |} (fresh files) in
  (exists e,
     response w
     = Some (500, JsonBody [("success", VBool false);
                            ("message", VString "Error processing the prediction");
                            ("error", VString (message e))])
     /\ sends (trace w)
        = [(500, JsonBody [("success", VBool false);
                           ("message", VString "Error processing the prediction");
                           ("error", VString (message e))])]
     /\ (truthy (promptFeedback_blockReason result) = false -> kind e = TypeError))
  /\ (exists rest,
        after is_send (trace w)
        = EvExists (path f) true :: EvUnlink (path f) :: rest)
  /\ (r = inr tt
      \/ exists msg, unlinkError fl = Some msg /\ r = inl (mkError SystemError msg))
  /\ (unlinkError fl = None -> r = inr tt /\ fs w = delete (path f) files).
Proof.
  intros Hfile Hread Hcall Hcands Hcontent Hparts.
  with_predict_run genAI f files r w pre.
  rewrite Htrace, (sends_quiet pre Hquiet),
    (after_quiet pre Hquiet is_send _ quiet_not_send).
  rewrite Hresponse, Hr, Hfs.
  rewrite (predict_answer_readable genAI f files fl Hfile Hread), Hcall.
  unfold cleanup_events, cleanup_completion, cleanup_files. rewrite Hfile.
  assert (Hanswer : exists e,
            predict_reply (handling (inr result))
            = (500, failure_envelope "Error processing the prediction" (message e))
            /\ (truthy (promptFeedback_blockReason result) = false
                -> kind e = TypeError)).
  { unfold handling, no_candidates, first_part.
    rewrite Hcands, Hcontent.
    destruct (truthy (promptFeedback_blockReason result)).
    - eexists (mkError PlainError _). split; [ reflexivity | discriminate ].
    - destruct Hparts as [-> | ->]; eexists; (split; [ reflexivity | reflexivity ]). }
  destruct Hanswer as (e & -> & Hkind).
  split; [ exists e; repeat split; [ | exact Hkind ] | ].
  - simpl. destruct (unlinkError fl); reflexivity.
  - split; [ eexists; reflexivity | ].
    destruct (unlinkError fl) as [msg |]; split.
    + right. exists msg. split; reflexivity.
    + discriminate.
    + left. reflexivity.
    + intros _. split; reflexivity.
Qed.

Lemma predict_parts_missing_witness :
  let '(r, w) := predict (Scenario.answers Scenario.hollow)
                         Scenario.with_file (fresh Scenario.disk) in
  (exists e,
     response w
     = Some (500, JsonBody [("success", VBool false);
                            ("message", VString "Error processing the prediction");
                            ("error", VString (message e))])
     /\ sends (trace w)
        = [(500, JsonBody [("success", VBool false);
                           ("message", VString "Error processing the prediction");
                           ("error", VString (message e))])]
     /\ (truthy (promptFeedback_blockReason Scenario.hollow) = false
         -> kind e = TypeError))
  /\ (exists rest,
        after is_send (trace w)
        = EvExists Scenario.leaf_path true :: EvUnlink Scenario.leaf_path :: rest)
  /\ (r = inr tt
      \/ exists msg, unlinkError Scenario.leaf = Some msg
                     /\ r = inl (mkError SystemError msg))
  /\ (unlinkError Scenario.leaf = None
      -> r = inr tt /\ fs w = delete Scenario.leaf_path Scenario.disk).
Proof.
  eapply (predict_parts_missing (Scenario.answers Scenario.hollow)
            Scenario.upload Scenario.disk Scenario.leaf Scenario.hollow);
    solve [ reflexivity | right; reflexivity ].
Defined.

(** *** Cleanup of the temporary file *)

(** C1, as stated, fails: on the success path the response is sent
    first and the file is removed afterwards. *)
Lemma predict_responds_before_cleanup :
  let '(r, w) := predict (Scenario.answers Scenario.diagnosis)
                         Scenario.with_file (fresh Scenario.disk) in
  sends (trace w)
  = [(200, JsonBody [("success", VBool true);
                     ("result", VString "Disease Name: Leaf Spot")])]
  /\ unlink_calls Scenario.leaf_path (trace w) = 1
  /\ occurs_before is_send (is_unlink Scenario.leaf_path) (trace w) = true
  /\ ~ deleted_before_response Scenario.leaf_path (trace w).
Proof.
  vm_compute. repeat split. discriminate.
Qed.

(** C1, amended: when the temporary file exists, then on every path
    (success, upstream error, read error) the route sends exactly one
    response and only afterwards checks for the file and calls the
    removal, exactly once and never on a missing file; when the removal
    succeeds, the file is gone and the handler completes normally. *)
Theorem predict_cleanup genAI (f : UploadedFile) (files : gmap string File) fl :
  files !! path f = Some fl ->
  let '(r, w) := predict genAI {| file := Some f |} (fresh files) in
  (exists reply, sends (trace w) = [reply] /\ response w = Some reply)
  /\ after is_send (trace w)
     = EvExists (path f) true :: EvUnlink (path f) ::
       match unlinkError fl with
       | None => [EvConsole Stdout [LStr "Uploaded file deleted"]]
       | Some _ => []
       end
  /\ unlink_calls (path f) (trace w) = 1
  /\ occurs_before is_send (is_unlink (path f)) (trace w) = true
  /\ ~ deleted_before_response (path f) (trace w)
  /\ (unlinkError fl = None ->
      r = inr tt /\ fs w = delete (path f) files /\ fs w !! path f = None).
Proof.
  intros Hfile. with_predict_run genAI f files r w pre.
  unfold deleted_before_response.
  rewrite Htrace, (sends_quiet pre Hquiet), (unlink_calls_quiet pre Hquiet),
    (after_quiet pre Hquiet is_send _ quiet_not_send),
    (occurs_before_quiet pre Hquiet is_send _ _ quiet_not_send),
    (occurs_before_quiet pre Hquiet (is_unlink (path f)) _ _
       (quiet_not_unlink (path f))).
  rewrite Hresponse, Hr, Hfs.
  unfold cleanup_events, cleanup_completion, cleanup_files. rewrite Hfile.
  destruct (predict_answer genAI f files) as [st body].
  unfold unlink_calls.
  destruct (unlinkError fl) as [msg |]; simpl; rewrite String.eqb_refl; simpl.
  - repeat split; eauto; discriminate.
  - repeat split; eauto; try discriminate. apply lookup_delete_eq.
Qed.

Lemma predict_cleanup_witness :
  let '(r, w) := predict (Scenario.answers Scenario.refused)
                         Scenario.with_file (fresh Scenario.disk) in
  (exists reply, sends (trace w) = [reply] /\ response w = Some reply)
  /\ after is_send (trace w)
     = EvExists Scenario.leaf_path true :: EvUnlink Scenario.leaf_path ::
       match unlinkError Scenario.leaf with
       | None => [EvConsole Stdout [LStr "Uploaded file deleted"]]
       | Some _ => []
       end
  /\ unlink_calls Scenario.leaf_path (trace w) = 1
  /\ occurs_before is_send (is_unlink Scenario.leaf_path) (trace w) = true
  /\ ~ deleted_before_response Scenario.leaf_path (trace w)
  /\ (unlinkError Scenario.leaf = None ->
      r = inr tt /\ fs w = delete Scenario.leaf_path Scenario.disk
      /\ fs w !! Scenario.leaf_path = None).
Proof.
  apply (predict_cleanup (Scenario.answers Scenario.refused)
           Scenario.upload Scenario.disk Scenario.leaf).
  reflexivity.
Defined.

(** C2, as stated, fails: when the removal of the file fails, the
    handler ends by throwing that error, and nothing is written to the
    console after the failed call. *)
Lemma predict_unlink_failure_escapes :
  let '(r, w) := predict (Scenario.answers Scenario.diagnosis)
                         Scenario.with_file (fresh Scenario.locked_disk) in
  r = inl (mkError SystemError "EPERM: operation not permitted, unlink")
  /\ after (is_unlink Scenario.leaf_path) (trace w) = []
  /\ r <> inr tt.
Proof.
  vm_compute. repeat split. discriminate.
Qed.

Lemma predict_answer_deletable genAI (f : UploadedFile) (files : gmap string File) fl :
  files !! path f = Some fl ->
  predict_answer genAI f (<[path f := deletable fl]> files)
  = predict_answer genAI f files.
Proof.
  intros Hfile. unfold predict_answer, read.
  rewrite lookup_insert_eq, Hfile. reflexivity.
Qed.

(** C2, amended: when the removal of the temporary file fails, the
    response is the one that goes out when the removal succeeds (it has
    been sent already, and the failure is not in it); the handler
    neither catches nor logs the failure: it ends by throwing it, with
    no further event, and the file stays. *)
Theorem predict_unlink_failure genAI (f : UploadedFile) (files : gmap string File)
    fl msg :
  files !! path f = Some fl -> unlinkError fl = Some msg ->
  let '(r, w) := predict genAI {| file := Some f |} (fresh files) in
  let '(r0, w0) := predict genAI {| file := Some f |}
                     (fresh (<[path f := deletable fl]> files)) in
  r0 = inr tt
  /\ response w = response w0
  /\ sends (trace w) = sends (trace w0)
  /\ (exists reply, sends (trace w) = [reply])
  /\ r = inl (mkError SystemError msg)
  /\ after (is_unlink (path f)) (trace w) = []
  /\ fs w = files.
Proof.
  intros Hfile Hunlink.
  pose proof (predict_run genAI f (<[path f := deletable fl]> files)) as Hrun0.
  destruct (predict genAI {| file := Some f |}
              (fresh (<[path f := deletable fl]> files))) as [r0 w0].
  destruct Hrun0 as (pre0 & Htrace0 & Hquiet0 & _ & Hresponse0 & Hr0 & _).
  with_predict_run genAI f files r w pre.
  rewrite (predict_answer_deletable genAI f files fl Hfile) in Htrace0, Hresponse0.
  rewrite Htrace, Htrace0, (sends_quiet pre Hquiet), (sends_quiet pre0 Hquiet0),
    (after_quiet pre Hquiet (is_unlink (path f)) _ (quiet_not_unlink (path f))).
  rewrite Hresponse, Hresponse0, Hr, Hr0, Hfs.
  unfold cleanup_events, cleanup_completion, cleanup_files.
  rewrite lookup_insert_eq, Hfile, Hunlink. simpl.
  rewrite String.eqb_refl.
  repeat split. eexists. reflexivity.
Qed.

Lemma predict_unlink_failure_witness :
  let '(r, w) := predict (Scenario.answers Scenario.diagnosis)
                         Scenario.with_file (fresh Scenario.locked_disk) in
  let '(r0, w0) := predict (Scenario.answers Scenario.diagnosis)
                     Scenario.with_file
                     (fresh (<[Scenario.leaf_path := deletable Scenario.locked_leaf]>
                               Scenario.locked_disk)) in
  r0 = inr tt
  /\ response w = response w0
  /\ sends (trace w) = sends (trace w0)
  /\ (exists reply, sends (trace w) = [reply])
  /\ r = inl (mkError SystemError "EPERM: operation not permitted, unlink")
  /\ after (is_unlink Scenario.leaf_path) (trace w) = []
  /\ fs w = Scenario.locked_disk.
Proof.
  apply (predict_unlink_failure (Scenario.answers Scenario.diagnosis)
           Scenario.upload Scenario.locked_disk Scenario.locked_leaf
           "EPERM: operation not permitted, unlink");
    reflexivity.
Defined.

(** *** The diagnostic route against the upload route *)

(** The two routes answer with the same status, the same [success]
    flag and the same [result] in every state of the handling. *)
Lemma replies_agree (h : Handling) :
  fst (predict_reply h) = fst (test_reply h)
  /\ body_property "success" (snd (predict_reply h))
     = body_property "success" (snd (test_reply h))
  /\ body_property "result" (snd (predict_reply h))
     = body_property "result" (snd (test_reply h)).
Proof.
  destruct h as [e | reason | | [t |] | e]; repeat split.
Qed.

(** C9: the diagnostic route makes the call of the upload route, with
    the same model and the same four safety settings and a user turn
    that holds the short text prompt in place of the image and the
    instruction; and for the same upstream outcome both routes are in
    the same state of the response handling (rejected, blocked, no
    candidate, first part of the first candidate), which fixes the status,
    the [success] flag and the [result] of both answers. *)
Theorem test_gemini_mirrors_predict genAI (f : UploadedFile)
    (files : gmap string File) fl o :
  files !! path f = Some fl -> readError fl = None ->
  genAI (predict_call f (bytes fl)) = o -> genAI test_call = o ->
  let '(rp, wp) := predict genAI {| file := Some f |} (fresh files) in
  let '(rt, wt) := test_gemini genAI (fresh files) in
  (exists cp ct,
     generate_calls (trace wp) = [cp] /\ generate_calls (trace wt) = [ct]
     /\ model cp = "gemini-2.5-flash" /\ model ct = model cp
     /\ safetySettings ct = safetySettings cp
     /\ List.map category (safetySettings cp) = harm_categories
     /\ List.map threshold (safetySettings cp)
        = [BLOCK_NONE; BLOCK_NONE; BLOCK_NONE; BLOCK_NONE]
     /\ contents cp
        = [ {| role := Some "user";
               parts := Some [inline_part (Base64.encode (bytes fl)) (mimetype f);
                              text_part textPrompt] |} ]
     /\ contents ct
        = [ {| role := Some "user"; parts := Some [text_part testPrompt] |} ])
  /\ response wp = Some (predict_reply (handling o))
  /\ response wt = Some (test_reply (handling o))
  /\ (exists st bp bt,
        response wp = Some (st, bp) /\ response wt = Some (st, bt)
        /\ body_property "success" bp = body_property "success" bt
        /\ body_property "result" bp = body_property "result" bt).
Proof.
  intros Hfile Hread Hcallp Hcallt.
  pose proof (test_gemini_run genAI files) as Hrunt.
  with_predict_run genAI f files rp wp pre.
  destruct (test_gemini genAI (fresh files)) as [rt wt].
  destruct Hrunt as (_ & _ & Hresponset & _ & Hcallst).
  rewrite Hcallt in Hresponset.
  rewrite (predict_answer_readable genAI f files fl Hfile Hread), Hcallp
    in Hresponse.
  split; [ | split; [ exact Hresponse | split; [ exact Hresponset | ] ] ].
  - exists (predict_call f (bytes fl)), test_call.
    rewrite Htrace, generate_calls_app, Hcalls, Hcallst.
    rewrite (predict_calls_readable f files fl Hfile Hread).
    simpl. rewrite generate_calls_cleanup. repeat split.
  - destruct (replies_agree (handling o)) as (Hst & Hsuccess & Hresult).
    rewrite Hresponse, Hresponset.
    destruct (predict_reply (handling o)) as [st bp].
    destruct (test_reply (handling o)) as [st' bt].
    simpl in Hst. subst st'. exists st, bp, bt. repeat split; assumption.
Qed.

Lemma test_gemini_mirrors_predict_witness :
  let '(rp, wp) := predict (Scenario.answers Scenario.diagnosis)
                     Scenario.with_file (fresh Scenario.disk) in
  let '(rt, wt) := test_gemini (Scenario.answers Scenario.diagnosis)
                     (fresh Scenario.disk) in
  response wp
  = Some (200, JsonBody [("success", VBool true);
                         ("result", VString "Disease Name: Leaf Spot")])
  /\ response wt
     = Some (200, JsonBody [("success", VBool true);
                            ("message", VString "Gemini API is working correctly.");
                            ("result", VString "Disease Name: Leaf Spot")]).
Proof.
  pose proof (test_gemini_mirrors_predict (Scenario.answers Scenario.diagnosis)
                Scenario.upload Scenario.disk Scenario.leaf
                (inr Scenario.diagnosis)
                eq_refl eq_refl eq_refl eq_refl) as H.
  destruct (predict _ _ _) as [rp wp].
  destruct (test_gemini _ _) as [rt wt].
  destruct H as (_ & Hp & Ht & _).
  split; [ exact Hp | exact Ht ].
Defined.


(** *** The liveness route *)

(** C10: [GET /] answers 200 with a fixed, non-empty text body.  The
    handler takes no upstream client; it leaves the files as they are and
    does nothing besides one console line and the response. *)
Theorem health_static (files : gmap string File) :
  exists body,
    health (fresh files)
    = (inr tt,
       {| fs := files; statusCode := 200;
          response := Some (200, TextBody body);
          trace := [EvConsole Stdout [LStr "Health check hit"];
                    EvSend 200 (TextBody body)] |})
    /\ body <> EmptyString
    /\ body = "🌱 Plant Disease Detection Server is running ✅".
Proof.
  eexists. split; [ reflexivity | split; [ discriminate | reflexivity ] ].
Qed.

(** *** The upload route without a file *)

(** C6: a request without a file is answered 400 with
    [{success:false, message:"No file uploaded."}]; the external API is
    not called and no file is touched. *)
Theorem predict_no_file genAI (req : Request) (files : gmap string File) :
  file req = None ->
  let '(r, w) := predict genAI req (fresh files) in
  r = inr tt
  /\ response w
     = Some (400, JsonBody [("success", VBool false);
                            ("message", VString "No file uploaded.")])
  /\ sends (trace w)
     = [(400, JsonBody [("success", VBool false);
                        ("message", VString "No file uploaded.")])]
  /\ generate_calls (trace w) = []
  /\ trace w
     = [EvSend 400 (JsonBody [("success", VBool false);
                              ("message", VString "No file uploaded.")])]
  /\ fs w = files.
Proof.
  intros Hfile. destruct req as [fo]. simpl in Hfile. subst fo.
  run_handler. repeat split.
Qed.

Lemma predict_no_file_witness :
  let '(r, w) := predict (Scenario.answers Scenario.diagnosis)
                         Scenario.without_file (fresh Scenario.disk) in
  r = inr tt
  /\ response w
     = Some (400, JsonBody [("success", VBool false);
                            ("message", VString "No file uploaded.")])
  /\ sends (trace w)
     = [(400, JsonBody [("success", VBool false);
                        ("message", VString "No file uploaded.")])]
  /\ generate_calls (trace w) = []
  /\ trace w
     = [EvSend 400 (JsonBody [("success", VBool false);
                              ("message", VString "No file uploaded.")])]
  /\ fs w = Scenario.disk.
Proof.
  apply (predict_no_file (Scenario.answers Scenario.diagnosis)
           Scenario.without_file Scenario.disk).
  reflexivity.
Defined.

(** * Further properties of the handlers *)

Import Journal.

(** *** The upload route on the paths the upstream or the disk decide *)

(** X1: when the call to the upstream API rejects, the upload route
    answers 500 with the error envelope carrying the message of the
    rejection, and the temporary file is still removed. *)
Theorem predict_upstream_rejects genAI (f : UploadedFile)
    (files : gmap string File) fl e :
  files !! path f = Some fl -> readError fl = None -> unlinkError fl = None ->
  genAI (predict_call f (bytes fl)) = inl e ->
  let '(r, w) := predict genAI {| file := Some f |} (fresh files) in
  r = inr tt
  /\ sends (trace w)
     = [(500, JsonBody [("success", VBool false);
                        ("message", VString "Error processing the prediction");
                        ("error", VString (message e))])]
  /\ unlink_calls (path f) (trace w) = 1
  /\ fs w = delete (path f) files.
Proof.
  intros Hfile Hread Hunlink Hcall.
  with_predict_run genAI f files r w pre.
  rewrite Htrace, (sends_quiet pre Hquiet), (unlink_calls_quiet pre Hquiet).
  rewrite Hr, Hfs, (predict_answer_readable genAI f files fl Hfile Hread), Hcall.
  unfold cleanup_events, cleanup_completion, cleanup_files, unlink_calls.
  rewrite Hfile, Hunlink. simpl. rewrite String.eqb_refl. repeat split.
Qed.

Lemma predict_upstream_rejects_witness :
  let '(r, w) := predict Cases.offline
                         Scenario.with_file (fresh Scenario.disk) in
  r = inr tt
  /\ sends (trace w)
     = [(500, JsonBody [("success", VBool false);
                        ("message", VString "Error processing the prediction");
                        ("error", VString "fetch failed")])]
  /\ unlink_calls Scenario.leaf_path (trace w) = 1
  /\ fs w = delete Scenario.leaf_path Scenario.disk.
Proof.
  apply (predict_upstream_rejects Cases.offline
           Scenario.upload Scenario.disk Scenario.leaf
           (mkError ApiError "fetch failed"));
    reflexivity.
Defined.

(** X2: when the temporary file exists but cannot be read, the upload
    route answers 500 with the message of the read error, makes no call
    to the upstream API, and still calls the removal of the file once. *)
Theorem predict_unreadable genAI (f : UploadedFile)
    (files : gmap string File) fl msg :
  files !! path f = Some fl -> readError fl = Some msg ->
  let '(r, w) := predict genAI {| file := Some f |} (fresh files) in
  sends (trace w)
  = [(500, JsonBody [("success", VBool false);
                     ("message", VString "Error processing the prediction");
                     ("error", VString msg)])]
  /\ generate_calls (trace w) = []
  /\ unlink_calls (path f) (trace w) = 1.
Proof.
  intros Hfile Hread.
  with_predict_run genAI f files r w pre.
  rewrite Htrace, (sends_quiet pre Hquiet), (unlink_calls_quiet pre Hquiet),
    generate_calls_app, Hcalls.
  unfold predict_answer, predict_calls, read. rewrite Hfile, Hread.
  simpl. rewrite generate_calls_cleanup.
  unfold cleanup_events, unlink_calls. rewrite Hfile.
  destruct (unlinkError fl); simpl; rewrite String.eqb_refl; repeat split.
Qed.

(** X3: when the temporary file is not there, the upload route answers
    500 with the ENOENT message of the read, makes no call to the
    upstream API, finds no file in its [finally] block and so calls no
    removal; it completes normally and leaves the files as they are. *)
Theorem predict_file_missing genAI (f : UploadedFile) (files : gmap string File) :
  files !! path f = None ->
  let '(r, w) := predict genAI {| file := Some f |} (fresh files) in
  r = inr tt
  /\ sends (trace w)
     = [(500, JsonBody [("success", VBool false);
                        ("message", VString "Error processing the prediction");
                        ("error", VString (message (enoent "open" (path f))))])]
  /\ generate_calls (trace w) = []
  /\ after is_send (trace w) = [EvExists (path f) false]
  /\ unlink_calls (path f) (trace w) = 0
  /\ fs w = files.
Proof.
  intros Hfile.
  with_predict_run genAI f files r w pre.
  rewrite Htrace, (sends_quiet pre Hquiet), (unlink_calls_quiet pre Hquiet),
    (after_quiet pre Hquiet is_send _ quiet_not_send),
    generate_calls_app, Hcalls, Hr, Hfs.
  unfold predict_answer, predict_calls, read, cleanup_events,
    cleanup_completion, cleanup_files.
  rewrite Hfile. repeat split.
Qed.

Lemma predict_unreadable_witness :
  let '(r, w) := predict (Scenario.answers Scenario.diagnosis)
                         Scenario.with_file (fresh Cases.sealed_disk) in
  sends (trace w)
  = [(500, JsonBody [("success", VBool false);
                     ("message", VString "Error processing the prediction");
                     ("error", VString "EACCES: permission denied, open")])]
  /\ generate_calls (trace w) = []
  /\ unlink_calls Scenario.leaf_path (trace w) = 1.
Proof.
  apply (predict_unreadable (Scenario.answers Scenario.diagnosis)
           Scenario.upload Cases.sealed_disk Cases.sealed_leaf
           "EACCES: permission denied, open");
    reflexivity.
Defined.

Lemma predict_file_missing_witness :
  let '(r, w) := predict (Scenario.answers Scenario.diagnosis)
                         Scenario.with_file (fresh Cases.png_disk) in
  r = inr tt
  /\ sends (trace w)
     = [(500, JsonBody [("success", VBool false);
                        ("message", VString "Error processing the prediction");
                        ("error", VString (message (enoent "open" Scenario.leaf_path)))])]
  /\ generate_calls (trace w) = []
  /\ after is_send (trace w) = [EvExists Scenario.leaf_path false]
  /\ unlink_calls Scenario.leaf_path (trace w) = 0
  /\ fs w = Cases.png_disk.
Proof.
  apply (predict_file_missing (Scenario.answers Scenario.diagnosis)
           Scenario.upload Cases.png_disk).
  reflexivity.
Defined.

(** X4: whatever the request, the files and the upstream do, the upload
    route leaves every file other than the request's own temporary file
    as it was. *)
Theorem predict_keeps_other_files genAI (req : Request)
    (files : gmap string File) (q : string) :
  (forall f, file req = Some f -> path f <> q) ->
  let '(r, w) := predict genAI req (fresh files) in
  fs w !! q = files !! q.
Proof.
  intros Hother. destruct req as [[f |]].
  - specialize (Hother f eq_refl).
    with_predict_run genAI f files r w pre.
    rewrite Hfs. unfold cleanup_files.
    destruct (files !! path f) as [fl |]; [ | reflexivity ].
    destruct (unlinkError fl); [ reflexivity | ].
    now apply lookup_delete_ne.
  - run_handler. reflexivity.
Qed.

Lemma predict_keeps_other_files_witness :
  let '(r, w) := predict (Scenario.answers Scenario.diagnosis)
                         Scenario.with_file (fresh Cases.two_files) in
  fs w !! Cases.other_path = Cases.two_files !! Cases.other_path.
Proof.
  apply (predict_keeps_other_files (Scenario.answers Scenario.diagnosis)
           Scenario.with_file Cases.two_files Cases.other_path).
  intros f Hf. injection Hf as <-. discriminate.
Defined.

Lemma predict_reply_status (h : Handling) :
  fst (predict_reply h) = 200 \/ fst (predict_reply h) = 500.
Proof. destruct h; simpl; auto. Qed.

Lemma predict_answer_status genAI f files :
  fst (predict_answer genAI f files) = 200
  \/ fst (predict_answer genAI f files) = 500.
Proof.
  unfold predict_answer. destruct (read files (path f)); [ right; reflexivity | ].
  apply predict_reply_status.
Qed.

(** X5: every request to the upload route gets exactly one response,
    with status 200, 400 or 500; the status is 400 exactly when the
    request has no file; and the upstream API is called at most once. *)
Theorem predict_answers_once genAI (req : Request) (files : gmap string File) :
  let '(r, w) := predict genAI req (fresh files) in
  exists st body,
    sends (trace w) = [(st, body)]
    /\ response w = Some (st, body)
    /\ (st = 200 \/ st = 400 \/ st = 500)
    /\ (st = 400 <-> file req = None)
    /\ List.length (generate_calls (trace w)) <= 1.
Proof.
  destruct req as [[f |]].
  - with_predict_run genAI f files r w pre.
    rewrite Htrace, (sends_quiet pre Hquiet), generate_calls_app, Hcalls, Hresponse.
    pose proof (predict_answer_status genAI f files) as Hst.
    destruct (predict_answer genAI f files) as [st body]. simpl in Hst.
    exists st, body. simpl. rewrite generate_calls_cleanup.
    split; [ unfold cleanup_events; destruct (files !! path f) as [fl |];
             [ destruct (unlinkError fl) | ]; reflexivity | ].
    split; [ reflexivity | ].
    split; [ tauto | ].
    split; [ split; [ intros ->; destruct Hst; discriminate | discriminate ] | ].
    unfold predict_calls. destruct (read files (path f)); simpl; lia.
  - run_handler. eexists _, _. simpl.
    split; [ reflexivity | split; [ reflexivity | ] ].
    split; [ tauto | split; [ tauto | lia ] ].
Qed.

(** X6: when the first part of the first candidate carries no text (the
    [text] property is undefined), the upload route still answers 200
    with [success: true], and the body has no [result] property. *)
Theorem predict_first_part_without_text genAI (f : UploadedFile)
    (files : gmap string File) fl result c cs ct p ps :
  files !! path f = Some fl -> readError fl = None ->
  genAI (predict_call f (bytes fl)) = inr result ->
  truthy (promptFeedback_blockReason result) = false ->
  candidates result = Some (c :: cs) ->
  content c = Some ct -> parts ct = Some (p :: ps) -> text p = None ->
  let '(r, w) := predict genAI {| file := Some f |} (fresh files) in
  exists body,
    sends (trace w) = [(200, body)]
    /\ body = JsonBody [("success", VBool true)]
    /\ body_property "result" body = VUndefined.
Proof.
  intros Hfile Hread Hcall Hblock Hcands Hcontent Hparts Htext.
  with_predict_run genAI f files r w pre.
  rewrite Htrace, (sends_quiet pre Hquiet).
  rewrite (predict_answer_readable genAI f files fl Hfile Hread), Hcall.
  rewrite (handling_first_part result c cs Hblock Hcands).
  unfold first_part. rewrite Hcands, Hcontent, Hparts, Htext.
  eexists. split; [ | split; reflexivity ].
  simpl. unfold cleanup_events. rewrite Hfile.
  destruct (unlinkError fl); reflexivity.
Qed.

Lemma predict_first_part_without_text_witness :
  let '(r, w) := predict (Scenario.answers Cases.textless)
                         Scenario.with_file (fresh Scenario.disk) in
  exists body,
    sends (trace w) = [(200, body)]
    /\ body = JsonBody [("success", VBool true)]
    /\ body_property "result" body = VUndefined.
Proof.
  eapply (predict_first_part_without_text (Scenario.answers Cases.textless)
            Scenario.upload Scenario.disk Scenario.leaf Cases.textless);
    reflexivity.
Defined.

(** X7: when the first candidate has no content, the access to its
    parts throws the TypeError of a property read on [undefined]
    (reading [parts]); the upload route catches it, writes it to the
    error console, and answers 500 with the error envelope carrying its
    message. *)
Theorem predict_candidate_without_content genAI (f : UploadedFile)
    (files : gmap string File) fl result c cs :
  files !! path f = Some fl -> readError fl = None ->
  genAI (predict_call f (bytes fl)) = inr result ->
  truthy (promptFeedback_blockReason result) = false ->
  candidates result = Some (c :: cs) -> content c = None ->
  let '(r, w) := predict genAI {| file := Some f |} (fresh files) in
  stderr (trace w)
  = [ [LStr "Error during prediction:";
       LErr (mkError TypeError
               "Cannot read properties of undefined (reading 'parts')")] ]
  /\ sends (trace w)
     = [(500, JsonBody [("success", VBool false);
                        ("message", VString "Error processing the prediction");
                        ("error",
                         VString "Cannot read properties of undefined (reading 'parts')")])]
  /\ generate_calls (trace w) = [predict_call f (bytes fl)].
Proof.
  intros Hfile Hread Hcall Hblock Hcands Hcontent.
  spell_out. run_handler.
  destruct (unlinkError fl); repeat split.
Qed.

Lemma predict_candidate_without_content_witness :
  let '(r, w) := predict (Scenario.answers Cases.contentless)
                         Scenario.with_file (fresh Scenario.disk) in
  stderr (trace w)
  = [ [LStr "Error during prediction:";
       LErr (mkError TypeError
               "Cannot read properties of undefined (reading 'parts')")] ]
  /\ sends (trace w)
     = [(500, JsonBody [("success", VBool false);
                        ("message", VString "Error processing the prediction");
                        ("error",
                         VString "Cannot read properties of undefined (reading 'parts')")])]
  /\ generate_calls (trace w)
     = [predict_call Scenario.upload (bytes Scenario.leaf)].
Proof.
  eapply (predict_candidate_without_content (Scenario.answers Cases.contentless)
            Scenario.upload Scenario.disk Scenario.leaf Cases.contentless);
    reflexivity.
Defined.

Lemma predict_answer_same_upload genAI (f f' : UploadedFile)
    (files : gmap string File) :
  path f = path f' -> mimetype f = mimetype f' ->
  predict_answer genAI f files = predict_answer genAI f' files.
Proof.
  intros Hpath Hmime. unfold predict_answer, predict_call.
  now rewrite Hpath, Hmime.
Qed.

(** X8: the original name of the upload reaches neither the upstream
    API nor the client: two uploads that agree on the temporary path and
    on the media type get the same call, the same response, the same
    completion and the same files, whatever their original names. *)
Theorem predict_ignores_originalname genAI (f f' : UploadedFile)
    (files : gmap string File) :
  path f = path f' -> mimetype f = mimetype f' ->
  let '(r, w) := predict genAI {| file := Some f |} (fresh files) in
  let '(r', w') := predict genAI {| file := Some f' |} (fresh files) in
  r = r'
  /\ sends (trace w) = sends (trace w')
  /\ response w = response w'
  /\ generate_calls (trace w) = generate_calls (trace w')
  /\ fs w = fs w'.
Proof.
  intros Hpath Hmime.
  pose proof (predict_run genAI f' files) as Hrun'.
  destruct (predict genAI {| file := Some f' |} (fresh files)) as [r' w'].
  destruct Hrun' as (pre' & Htrace' & Hquiet' & Hcalls' & Hresponse' & Hr' & Hfs').
  with_predict_run genAI f files r w pre.
  rewrite <- (predict_answer_same_upload genAI f f' files Hpath Hmime)
    in Htrace', Hresponse'.
  rewrite <- Hpath in Htrace', Hr', Hfs'.
  assert (Hsame : predict_calls f' files = predict_calls f files).
  { unfold predict_calls, predict_call. now rewrite Hpath, Hmime. }
  rewrite Htrace, Htrace', (sends_quiet pre Hquiet), (sends_quiet pre' Hquiet'),
    !generate_calls_app, Hcalls, Hcalls', Hsame.
  rewrite Hr, Hr', Hfs, Hfs', Hresponse, Hresponse'.
  repeat split.
Qed.

Lemma predict_ignores_originalname_witness :
  let '(r, w) := predict (Scenario.answers Scenario.diagnosis)
                         {| file := Some Scenario.upload |} (fresh Scenario.disk) in
  let '(r', w') := predict (Scenario.answers Scenario.diagnosis)
                           {| file := Some Cases.renamed |} (fresh Scenario.disk) in
  r = r'
  /\ sends (trace w) = sends (trace w')
  /\ response w = response w'
  /\ generate_calls (trace w) = generate_calls (trace w')
  /\ fs w = fs w'.
Proof.
  apply (predict_ignores_originalname (Scenario.answers Scenario.diagnosis)
           Scenario.upload Cases.renamed Scenario.disk);
    reflexivity.
Defined.

(** X9: the upload route looks at no file but the request's own: on
    two disks that agree on the temporary file of the request, it makes
    the same call, sends the same response and completes the same way. *)
Theorem predict_reads_only_its_file genAI (f : UploadedFile)
    (files files' : gmap string File) :
  files !! path f = files' !! path f ->
  let '(r, w) := predict genAI {| file := Some f |} (fresh files) in
  let '(r', w') := predict genAI {| file := Some f |} (fresh files') in
  r = r'
  /\ sends (trace w) = sends (trace w')
  /\ response w = response w'
  /\ generate_calls (trace w) = generate_calls (trace w').
Proof.
  intros Hsame.
  pose proof (predict_run genAI f files') as Hrun'.
  destruct (predict genAI {| file := Some f |} (fresh files')) as [r' w'].
  destruct Hrun' as (pre' & Htrace' & Hquiet' & Hcalls' & Hresponse' & Hr' & _).
  with_predict_run genAI f files r w pre.
  assert (Hanswer : predict_answer genAI f files' = predict_answer genAI f files).
  { unfold predict_answer, read. now rewrite Hsame. }
  assert (Hpc : predict_calls f files' = predict_calls f files).
  { unfold predict_calls, read. now rewrite Hsame. }
  assert (Hce : cleanup_events (path f) files' = cleanup_events (path f) files).
  { unfold cleanup_events. now rewrite Hsame. }
  assert (Hcc : cleanup_completion (path f) files'
                = cleanup_completion (path f) files).
  { unfold cleanup_completion. now rewrite Hsame. }
  rewrite Htrace, Htrace', (sends_quiet pre Hquiet), (sends_quiet pre' Hquiet'),
    !generate_calls_app, Hcalls, Hcalls', Hresponse, Hresponse', Hr, Hr'.
  rewrite Hanswer, Hpc, Hce, Hcc. repeat split.
Qed.

Lemma predict_reads_only_its_file_witness :
  let '(r, w) := predict (Scenario.answers Scenario.diagnosis)
                         {| file := Some Scenario.upload |} (fresh Scenario.disk) in
  let '(r', w') := predict (Scenario.answers Scenario.diagnosis)
                           {| file := Some Scenario.upload |}
                           (fresh Cases.two_files) in
  r = r'
  /\ sends (trace w) = sends (trace w')
  /\ response w = response w'
  /\ generate_calls (trace w) = generate_calls (trace w').
Proof.
  apply (predict_reads_only_its_file (Scenario.answers Scenario.diagnosis)
           Scenario.upload Scenario.disk Cases.two_files).
  reflexivity.
Defined.

(** X10: the cleanup does not make a repeated request fail in a new way:
    once a request has removed its file, a second run of the upload route
    on the same upload finds no file, answers 500 with the ENOENT message
    of the read, calls neither the upstream API nor the removal, and
    changes no file. *)
Theorem predict_twice genAI (f : UploadedFile) (files : gmap string File) fl :
  files !! path f = Some fl -> unlinkError fl = None ->
  let '(r1, w1) := predict genAI {| file := Some f |} (fresh files) in
  let '(r2, w2) := predict genAI {| file := Some f |} (fresh (fs w1)) in
  fs w1 !! path f = None
  /\ r2 = inr tt
  /\ sends (trace w2)
     = [(500, JsonBody [("success", VBool false);
                        ("message", VString "Error processing the prediction");
                        ("error", VString (message (enoent "open" (path f))))])]
  /\ generate_calls (trace w2) = []
  /\ unlink_calls (path f) (trace w2) = 0
  /\ fs w2 = fs w1.
Proof.
  intros Hfile Hunlink.
  with_predict_run genAI f files r1 w1 pre1.
  assert (Hgone : fs w1 !! path f = None).
  { rewrite Hfs. unfold cleanup_files. rewrite Hfile, Hunlink.
    apply lookup_delete_eq. }
  clear Htrace Hquiet Hcalls Hresponse Hr Hfs.
  with_predict_run genAI f (fs w1) r2 w2 pre2.
  rewrite Htrace, (sends_quiet pre2 Hquiet), (unlink_calls_quiet pre2 Hquiet),
    generate_calls_app, Hcalls, Hr, Hfs.
  unfold predict_answer, predict_calls, read, cleanup_events,
    cleanup_completion, cleanup_files.
  rewrite Hgone. repeat split.
Qed.

Lemma predict_twice_witness :
  let '(r1, w1) := predict (Scenario.answers Scenario.diagnosis)
                     Scenario.with_file (fresh Scenario.disk) in
  let '(r2, w2) := predict (Scenario.answers Scenario.diagnosis)
                     Scenario.with_file (fresh (fs w1)) in
  fs w1 !! Scenario.leaf_path = None
  /\ r2 = inr tt
  /\ sends (trace w2)
     = [(500, JsonBody [("success", VBool false);
                        ("message", VString "Error processing the prediction");
                        ("error", VString (message (enoent "open" Scenario.leaf_path)))])]
  /\ generate_calls (trace w2) = []
  /\ unlink_calls Scenario.leaf_path (trace w2) = 0
  /\ fs w2 = fs w1.
Proof.
  apply (predict_twice (Scenario.answers Scenario.diagnosis)
           Scenario.upload Scenario.disk Scenario.leaf);
    reflexivity.
Defined.

(** *** What the upload route writes to the error console *)

(** Every path of the upload route with a file, one goal per path. *)
Ltac predict_paths genAI f files finish :=
  run_handler;
  destruct (files !! path f) as [?fl |] eqn:?Hfile; run_handler; [ | finish ];
  match goal with
  | fl : File |- _ =>
      destruct (unlinkError fl) as [?uerr |] eqn:?Hunlink;
      (destruct (readError fl) as [?rerr |] eqn:?Hread;
         run_handler; [ finish | ];
       destruct (genAI _) as [?e | ?result] eqn:?Hcall; run_handler; [ finish | ];
       match goal with
       | result : GenerateContentResponse |- _ =>
           destruct (truthy (promptFeedback_blockReason result)) eqn:?Hblock;
             run_handler; [ finish | ];
           destruct (candidates result) as [[| ?c ?cs] |] eqn:?Hcands;
             run_handler; [ finish | | finish ];
           match goal with
           | c : Candidate |- _ =>
               destruct (content c) as [?ct |] eqn:?Hcontent;
                 run_handler; [ | finish ];
               match goal with
               | ct : Content |- _ =>
                   destruct (parts ct) as [[| ?p ?ps] |] eqn:?Hparts;
                     run_handler; [ finish | | finish ];
                   match goal with
                   | p : Part |- _ =>
                       destruct (text p) as [?t |] eqn:?Htext; run_handler; finish
                   end
               end
           end
       end)
  end.

(** X11: the upload route writes to the error console exactly when it
    answers 500: a 200 response comes with nothing on that console, and
    for a 500 response the last line written there holds the error whose
    message is the [error] field of the response. *)
Theorem predict_logs_what_it_reports genAI (f : UploadedFile)
    (files : gmap string File) :
  let '(r, w) := predict genAI {| file := Some f |} (fresh files) in
  exists st body,
    response w = Some (st, body)
    /\ (st = 200 -> stderr (trace w) = [])
    /\ (st <> 200 ->
        exists e,
          last (stderr (trace w))
          = Some [LStr "Error during prediction:"; LErr e]
          /\ body = failure_envelope "Error processing the prediction" (message e)).
Proof.
  predict_paths genAI f files
    ltac:(eexists _, _; split; [ reflexivity | ];
          split; [ first [ discriminate | reflexivity ] | ];
          intros Hst; first [ now contradiction Hst
                            | eexists; split; reflexivity ]).
Qed.

(** X12: when the prompt is reported blocked, the upload route writes
    two lines to the error console: first the request payload, that is
    the model and the contents with the inline image data but without the
    safety settings, then the error it reports to the client. *)
Theorem predict_blocked_logs_payload genAI (f : UploadedFile)
    (files : gmap string File) fl result reason :
  files !! path f = Some fl -> readError fl = None ->
  genAI (predict_call f (bytes fl)) = inr result ->
  promptFeedback_blockReason result = Some reason -> reason <> "" ->
  let '(r, w) := predict genAI {| file := Some f |} (fresh files) in
  stderr (trace w)
  = [ [LStr "Request payload:";
       LPayload "gemini-2.5-flash" (contents (predict_call f (bytes fl)))];
      [LStr "Error during prediction:";
       LErr (mkError PlainError ("Content generation blocked: " ++ reason))] ].
Proof.
  intros Hfile Hread Hcall Hreason Hne.
  assert (Htruthy : truthy (Some reason) = true).
  { unfold truthy. apply negb_true_iff, String.eqb_neq, Hne. }
  spell_out. run_handler.
  destruct (unlinkError fl); reflexivity.
Qed.

Lemma predict_blocked_logs_payload_witness :
  let '(r, w) := predict (Scenario.answers Scenario.refused)
                         Scenario.with_file (fresh Scenario.disk) in
  stderr (trace w)
  = [ [LStr "Request payload:";
       LPayload "gemini-2.5-flash"
         (contents (predict_call Scenario.upload Scenario.jpeg))];
      [LStr "Error during prediction:";
       LErr (mkError PlainError ("Content generation blocked: " ++ "SAFETY"))] ].
Proof.
  apply (predict_blocked_logs_payload (Scenario.answers Scenario.refused)
           Scenario.upload Scenario.disk Scenario.leaf Scenario.refused "SAFETY");
    solve [ reflexivity | discriminate ].
Defined.

(** *** The diagnostic route *)

Lemma test_reply_status (h : Handling) :
  fst (test_reply h) = 200 \/ fst (test_reply h) = 500.
Proof. destruct h; simpl; auto. Qed.

Lemma test_gemini_touches_no_file genAI (files : gmap string File) :
  existsb touches_files (trace (snd (test_gemini genAI (fresh files)))) = false.
Proof.
  run_handler.
  destruct (genAI _) as [e | result] eqn:Hcall; run_handler; [ reflexivity | ].
  destruct (truthy (promptFeedback_blockReason result)) eqn:Hblock;
    run_handler; [ reflexivity | ].
  destruct (candidates result) as [[| c cs] |] eqn:Hcands;
    run_handler; [ reflexivity | | reflexivity ].
  destruct (content c) as [ct |] eqn:Hcontent; run_handler; [ | reflexivity ].
  destruct (parts ct) as [[| p ps] |] eqn:Hparts;
    run_handler; [ reflexivity | | reflexivity ].
  destruct (text p) as [t |] eqn:Htext; run_handler; reflexivity.
Qed.

(** X13: whatever the upstream does, the diagnostic route never throws:
    it calls the upstream API exactly once, sends exactly one response,
    with status 200 or 500, and neither reads, looks for nor removes any
    file. *)
Theorem test_gemini_always_answers genAI (files : gmap string File) :
  let '(r, w) := test_gemini genAI (fresh files) in
  r = inr tt
  /\ (exists st body,
        sends (trace w) = [(st, body)] /\ response w = Some (st, body)
        /\ (st = 200 \/ st = 500))
  /\ List.length (generate_calls (trace w)) = 1
  /\ existsb touches_files (trace w) = false
  /\ fs w = files.
Proof.
  pose proof (test_gemini_run genAI files) as Hrun.
  pose proof (test_gemini_touches_no_file genAI files) as Hfiles.
  destruct (test_gemini genAI (fresh files)) as [r w].
  destruct Hrun as (Hr & Hfs & Hresponse & Hsends & Hcalls).
  pose proof (test_reply_status (handling (genAI test_call))) as Hst.
  destruct (test_reply (handling (genAI test_call))) as [st body].
  split; [ exact Hr | ].
  split; [ exists st, body; auto | ].
  split; [ now rewrite Hcalls | ].
  split; [ exact Hfiles | exact Hfs ].
Qed.

(** X14: when the upstream answer is not blocked and the first part of
    its first candidate carries a text, the diagnostic route answers 200
    with [{success:true, message:"Gemini API is working correctly.",
    result:<that text>}]. *)
Theorem test_gemini_success genAI (files : gmap string File)
    result c cs ct p ps t :
  genAI test_call = inr result ->
  truthy (promptFeedback_blockReason result) = false ->
  candidates result = Some (c :: cs) ->
  content c = Some ct -> parts ct = Some (p :: ps) -> text p = Some t ->
  let '(r, w) := test_gemini genAI (fresh files) in
  sends (trace w)
  = [(200, JsonBody [("success", VBool true);
                     ("message", VString "Gemini API is working correctly.");
                     ("result", VString t)])].
Proof.
  intros Hcall Hblock Hcands Hcontent Hparts Htext.
  pose proof (test_gemini_run genAI files) as Hrun.
  destruct (test_gemini genAI (fresh files)) as [r w].
  destruct Hrun as (_ & _ & _ & -> & _).
  rewrite Hcall, (handling_first_part result c cs Hblock Hcands).
  unfold first_part. rewrite Hcands, Hcontent, Hparts, Htext. reflexivity.
Qed.

Lemma test_gemini_success_witness :
  let '(r, w) := test_gemini (Scenario.answers Scenario.diagnosis)
                             (fresh Scenario.disk) in
  sends (trace w)
  = [(200, JsonBody [("success", VBool true);
                     ("message", VString "Gemini API is working correctly.");
                     ("result", VString "Disease Name: Leaf Spot")])].
Proof.
  eapply (test_gemini_success (Scenario.answers Scenario.diagnosis)
            Scenario.disk Scenario.diagnosis);
    reflexivity.
Defined.

(** X15: when the upstream answer carries a block reason, the
    diagnostic route answers 500 with the error envelope of the test, its
    [error] being the test's blocked message ending in that reason,
    whatever candidates the answer holds. *)
Theorem test_gemini_blocked genAI (files : gmap string File) result reason :
  genAI test_call = inr result ->
  promptFeedback_blockReason result = Some reason -> reason <> "" ->
  let '(r, w) := test_gemini genAI (fresh files) in
  sends (trace w)
  = [(500, JsonBody [("success", VBool false);
                     ("message", VString "Error testing the Gemini API");
                     ("error", VString ("Test content generation blocked: "
                                        ++ reason))])].
Proof.
  intros Hcall Hreason Hne.
  assert (Htruthy : truthy (Some reason) = true).
  { unfold truthy. apply negb_true_iff, String.eqb_neq, Hne. }
  pose proof (test_gemini_run genAI files) as Hrun.
  destruct (test_gemini genAI (fresh files)) as [r w].
  destruct Hrun as (_ & _ & _ & -> & _).
  rewrite Hcall. unfold handling. rewrite Hreason, Htruthy. reflexivity.
Qed.

Lemma test_gemini_blocked_witness :
  let '(r, w) := test_gemini (Scenario.answers Scenario.refused)
                             (fresh Scenario.disk) in
  sends (trace w)
  = [(500, JsonBody [("success", VBool false);
                     ("message", VString "Error testing the Gemini API");
                     ("error", VString ("Test content generation blocked: "
                                        ++ "SAFETY"))])].
Proof.
  apply (test_gemini_blocked (Scenario.answers Scenario.refused)
           Scenario.disk Scenario.refused "SAFETY");
    solve [ reflexivity | discriminate ].
Defined.

(** X16: when the upstream answer has no block reason and no candidate
    (the list absent or empty), the diagnostic route answers 500 with
    the no-candidates message of the test. *)
Theorem test_gemini_no_candidates genAI (files : gmap string File) result :
  genAI test_call = inr result ->
  truthy (promptFeedback_blockReason result) = false ->
  candidates result = None \/ candidates result = Some [] ->
  let '(r, w) := test_gemini genAI (fresh files) in
  sends (trace w)
  = [(500, JsonBody [("success", VBool false);
                     ("message", VString "Error testing the Gemini API");
                     ("error", VString "No candidates returned from API in test.")])].
Proof.
  intros Hcall Hblock Hcands.
  pose proof (test_gemini_run genAI files) as Hrun.
  destruct (test_gemini genAI (fresh files)) as [r w].
  destruct Hrun as (_ & _ & _ & -> & _).
  rewrite Hcall. unfold handling, no_candidates. rewrite Hblock.
  destruct Hcands as [-> | ->]; reflexivity.
Qed.

Lemma test_gemini_no_candidates_witness :
  let '(r, w) := test_gemini (Scenario.answers Scenario.silent)
                             (fresh Scenario.disk) in
  sends (trace w)
  = [(500, JsonBody [("success", VBool false);
                     ("message", VString "Error testing the Gemini API");
                     ("error", VString "No candidates returned from API in test.")])].
Proof.
  apply (test_gemini_no_candidates (Scenario.answers Scenario.silent)
           Scenario.disk Scenario.silent);
    solve [ reflexivity | right; reflexivity ].
Defined.

(** X17: when the call to the upstream API rejects, the diagnostic
    route answers 500 with the error envelope of the test carrying the
    message of the rejection. *)
Theorem test_gemini_upstream_rejects genAI (files : gmap string File) e :
  genAI test_call = inl e ->
  let '(r, w) := test_gemini genAI (fresh files) in
  sends (trace w)
  = [(500, JsonBody [("success", VBool false);
                     ("message", VString "Error testing the Gemini API");
                     ("error", VString (message e))])].
Proof.
  intros Hcall.
  pose proof (test_gemini_run genAI files) as Hrun.
  destruct (test_gemini genAI (fresh files)) as [r w].
  destruct Hrun as (_ & _ & _ & -> & _).
  rewrite Hcall. reflexivity.
Qed.

Lemma test_gemini_upstream_rejects_witness :
  let '(r, w) := test_gemini Cases.offline (fresh Scenario.disk) in
  sends (trace w)
  = [(500, JsonBody [("success", VBool false);
                     ("message", VString "Error testing the Gemini API");
                     ("error", VString "fetch failed")])].
Proof.
  apply (test_gemini_upstream_rejects Cases.offline Scenario.disk
           (mkError ApiError "fetch failed")).
  reflexivity.
Defined.

(** *** Start of the process *)

(** X18: when [GOOGLE_API_KEY] is unset or empty, the script writes one
    line to the error console and exits with code 1; it builds no client
    and never listens. *)
Theorem main_without_key (env : gmap string string) :
  env !! "GOOGLE_API_KEY" = None \/ env !! "GOOGLE_API_KEY" = Some "" ->
  Boot.main env
  = {| Boot.console :=
         [(Stderr, "GOOGLE_API_KEY is not set in the environment variables.")];
       Boot.outcome := Boot.Exited 1 |}.
Proof.
  intros [Hkey | Hkey]; unfold Boot.main; rewrite Hkey; reflexivity.
Qed.

Lemma main_without_key_witness :
  Boot.main Cases.with_empty_key
  = {| Boot.console :=
         [(Stderr, "GOOGLE_API_KEY is not set in the environment variables.")];
       Boot.outcome := Boot.Exited 1 |}.
Proof.
  apply (main_without_key Cases.with_empty_key). right. reflexivity.
Defined.

(** X19: when [GOOGLE_API_KEY] is a non-empty string, the script passes
    the key check: it writes the line about the client, builds the client
    from that key and calls [app.listen] with the text of [PORT] when that
    variable is a non-empty string, and with the number 5005 when it is
    unset or empty; the callback it passes would announce that same port.
    Whether the server then listens is not the script's doing. *)
Theorem main_with_key (env : gmap string string) (key : string) :
  env !! "GOOGLE_API_KEY" = Some key -> key <> "" ->
  exists port,
    Boot.main env
    = {| Boot.console :=
           [(Stdout, "Initializing Gemini client with API key from environment.")];
         Boot.outcome :=
           Boot.ListenCalled (Some key) port
             ("Server running on http://localhost:" ++ Boot.port_text port) |}
    /\ (env !! "PORT" = None \/ env !! "PORT" = Some "" ->
        port = Boot.Fallback 5005 /\ Boot.port_text port = "5005")
    /\ (forall p, env !! "PORT" = Some p -> p <> "" ->
        port = Boot.FromEnv p /\ Boot.port_text port = p).
Proof.
  intros Hkey Hne.
  assert (Htruthy : truthy (Some key) = true).
  { unfold truthy. apply negb_true_iff, String.eqb_neq, Hne. }
  exists (Boot.or_number (env !! "PORT") 5005).
  split; [ unfold Boot.main; rewrite Hkey, Htruthy; reflexivity | ].
  split.
  - intros [-> | ->]; split; reflexivity.
  - intros p -> Hp. unfold Boot.or_number, truthy.
    apply String.eqb_neq in Hp. rewrite Hp. split; reflexivity.
Qed.

Lemma main_with_key_witness :
  exists port,
    Boot.main Cases.with_key_and_port
    = {| Boot.console :=
           [(Stdout, "Initializing Gemini client with API key from environment.")];
         Boot.outcome :=
           Boot.ListenCalled (Some "k-123") port
             ("Server running on http://localhost:" ++ Boot.port_text port) |}
    /\ (Cases.with_key_and_port !! "PORT" = None
        \/ Cases.with_key_and_port !! "PORT" = Some "" ->
        port = Boot.Fallback 5005 /\ Boot.port_text port = "5005")
    /\ (forall p, Cases.with_key_and_port !! "PORT" = Some p -> p <> "" ->
        port = Boot.FromEnv p /\ Boot.port_text port = p).
Proof.
  apply (main_with_key Cases.with_key_and_port "k-123");
    solve [ reflexivity | discriminate ].
Defined.

(** *** The inline data *)

(** X20: the base64 text of [n] bytes has [4 * ceil(n / 3)] characters. *)
Theorem encode_length (bs : list byte) :
  String.length (Base64.encode bs) = 4 * ((List.length bs + 2) / 3).
Proof.
  induction bs as [| a | a b | a b c rest IH] using Base64Facts.list_ind3;
    try reflexivity.
  change (String.length (Base64.encode (a :: b :: c :: rest)))
    with (4 + String.length (Base64.encode rest)).
  rewrite IH.
  replace (List.length (a :: b :: c :: rest) + 2)
    with (List.length rest + 2 + 1 * 3) by (simpl; lia).
  rewrite Nat.div_add by lia. lia.
Qed.

Lemma predict_call_made genAI (f : UploadedFile) (files : gmap string File) fl :
  files !! path f = Some fl -> readError fl = None ->
  generate_calls (trace (snd (predict genAI {| file := Some f |} (fresh files))))
  = [predict_call f (bytes fl)].
Proof.
  intros Hfile Hread. with_predict_run genAI f files r w pre.
  simpl. rewrite Htrace, generate_calls_app, Hcalls.
  rewrite (predict_calls_readable f files fl Hfile Hread).
  simpl. now rewrite generate_calls_cleanup.
Qed.

(** X21: the call sent upstream determines the upload: two runs of the
    upload route that make the same call have read the same bytes and
    were given the same media type. *)
Theorem predict_call_determines_upload genAI1 genAI2 (f1 f2 : UploadedFile)
    (files1 files2 : gmap string File) fl1 fl2 :
  files1 !! path f1 = Some fl1 -> readError fl1 = None ->
  files2 !! path f2 = Some fl2 -> readError fl2 = None ->
  generate_calls (trace (snd (predict genAI1 {| file := Some f1 |} (fresh files1))))
  = generate_calls (trace (snd (predict genAI2 {| file := Some f2 |} (fresh files2)))) ->
  bytes fl1 = bytes fl2 /\ mimetype f1 = mimetype f2.
Proof.
  intros Hfile1 Hread1 Hfile2 Hread2.
  rewrite (predict_call_made genAI1 f1 files1 fl1 Hfile1 Hread1),
    (predict_call_made genAI2 f2 files2 fl2 Hfile2 Hread2).
  unfold predict_call, user_turn, inline_part.
  intros Hsame. injection Hsame as Hdata Hmime.
  split; [ now apply Base64Facts.encode_inj | exact Hmime ].
Qed.

Lemma predict_call_determines_upload_witness :
  bytes Scenario.leaf = bytes Scenario.locked_leaf
  /\ mimetype Scenario.upload = mimetype Cases.renamed.
Proof.
  apply (predict_call_determines_upload
           (Scenario.answers Scenario.diagnosis) Cases.offline
           Scenario.upload Cases.renamed Scenario.disk Scenario.locked_disk
           Scenario.leaf Scenario.locked_leaf);
    reflexivity.
Defined.
